(** * create-sid-react-app: the scaffolding CLI

    A shallow embedding of [bin/index.ts] (the commander action) and of
    [src/createApp.ts] (the scaffolder), together with the parts of the Node
    runtime they call: [path] (POSIX flavour), [fs-extra] over a file-system
    map, [JSON.stringify], [process.chdir] and [child_process.exec]. *)

From Stdlib Require Import Ascii.
From Stdlib Require String.
From stdpp Require Import base option list strings gmap fin_maps.

(** ** node:path, POSIX flavour *)

Module Path.

Definition is_sep (c : ascii) : bool := Ascii.eqb c "/".

(** [split "a/b"] is ["a"; "b"]: the text between the separators, empty
    pieces included ([split "/a/"] is [""; "a"; ""]). *)
Fixpoint split (s : string) : list string :=
  match s with
  | EmptyString => [""]
  | String c s' =>
      if is_sep c then "" :: split s'
      else match split s' with
           | x :: r => String c x :: r
           | [] => [String c ""]
           end
  end.

Definition isAbsolute (p : string) : bool :=
  match p with
  | String c _ => is_sep c
  | EmptyString => false
  end.

(** One segment of [normalizeString]: the stack holds the segments kept so
    far, innermost first. *)
Definition norm_step (allowAboveRoot : bool) (st : list string) (seg : string)
  : list string :=
  if String.eqb seg "" || String.eqb seg "." then st
  else if String.eqb seg ".." then
    match st with
    | top :: rest =>
        if String.eqb top ".."
        then (if allowAboveRoot then ".." :: st else st)
        else rest
    | [] => if allowAboveRoot then [".."] else []
    end
  else seg :: st.

Definition norm (allowAboveRoot : bool) (st : list string) (segs : list string)
  : list string :=
  fold_left (norm_step allowAboveRoot) segs st.

Definition normalizeString (p : string) (allowAboveRoot : bool) : string :=
  String.concat "/" (rev (norm allowAboveRoot [] (split p))).

Definition ends_with_sep (p : string) : bool :=
  match p with
  | EmptyString => false
  | _ => match last (split p) with Some "" => true | _ => false end
  end.

(** [path.normalize] *)
Definition normalize (p : string) : string :=
  if String.eqb p "" then "."
  else
    let isAbs := isAbsolute p in
    let trailing := ends_with_sep p in
    let q := normalizeString p (negb isAbs) in
    if String.eqb q "" then
      (if isAbs then "/" else if trailing then "./" else ".")
    else
      let q := if trailing then q +:+ "/" else q in
      if isAbs then "/" +:+ q else q.

(** [path.join]: the non-empty arguments, glued with the separator and
    normalized. *)
Definition join (args : list string) : string :=
  let parts := filter (λ a, a ≠ "") args in
  match parts with
  | [] => "."
  | _ => normalize (String.concat "/" parts)
  end.

(** The right-to-left loop of [path.resolve]: arguments are prepended until
    an absolute one is met; [process.cwd()] is used last. *)
Fixpoint resolve_loop (rargs : list string) (cwd : string) (acc : string)
  : string * bool :=
  match rargs with
  | [] =>
      if String.eqb cwd "" then (acc, false)
      else (cwd +:+ "/" +:+ acc, isAbsolute cwd)
  | a :: rest =>
      if String.eqb a "" then resolve_loop rest cwd acc
      else if isAbsolute a then (a +:+ "/" +:+ acc, true)
      else resolve_loop rest cwd (a +:+ "/" +:+ acc)
  end.

(** [path.resolve(...args)] in a process whose working directory is [cwd]. *)
Definition resolve (cwd : string) (args : list string) : string :=
  let '(p, isAbs) := resolve_loop (rev args) cwd "" in
  let q := normalizeString p (negb isAbs) in
  if isAbs then "/" +:+ q
  else if String.eqb q "" then "." else q.

(** [path.basename(p)]: trailing separators are dropped, then the text after
    the last separator is returned. *)
Definition basename (p : string) : string :=
  default "" (last (filter (λ s, s ≠ "") (split p))).

Fixpoint drop_empty (l : list string) : list string :=
  match l with
  | s :: r => if String.eqb s "" then drop_empty r else l
  | [] => []
  end.

(** [path.dirname(p)]: the text before the separator that precedes the last
    non-empty segment. *)
Definition dirname (p : string) : string :=
  if String.eqb p "" then "."
  else
    match drop_empty (rev (split p)) with
    | [] => "/"
    | _ :: rpre =>
        match rev rpre with
        | [] => "."
        | [""] => "/"
        | [""; ""] => "//"
        | pre => String.concat "/" pre
        end
    end.

End Path.

(** ** JSON values and [JSON.stringify] *)

#[local] Set Warnings "-register-all".

(** A parsed JSON text.  An object lists its own properties in the order
    [JSON.stringify] enumerates them; a number carries the text JavaScript
    prints for it. *)
Inductive json :=
| JNull
| JBool (b : bool)
| JNum (repr : string)
| JStr (s : string)
| JArr (items : list json)
| JObj (fields : list (string * json)).

Module Json.

Definition hex_digit (n : N) : ascii :=
  ascii_of_N (if (n <? 10)%N then 48 + n else 87 + n).

(** [QuoteJSONString], one code unit at a time. *)
Definition escape (c : ascii) : string :=
  let n := N_of_ascii c in
  if (n =? 34)%N then String "092" (String "034" "")
  else if (n =? 92)%N then "\\"
  else if (n =? 8)%N then "\b"
  else if (n =? 12)%N then "\f"
  else if (n =? 10)%N then "\n"
  else if (n =? 13)%N then "\r"
  else if (n =? 9)%N then "\t"
  else if (n <? 32)%N then
    "\u00" +:+ String (hex_digit (n / 16)) (String (hex_digit (n mod 16)) "")
  else String c "".

Fixpoint escape_all (s : string) : string :=
  match s with
  | EmptyString => ""
  | String c r => escape c +:+ escape_all r
  end.

Definition quote (s : string) : string :=
  String "034" (escape_all s) +:+ String "034" "".

Definition newline : string := String "010" "".

Fixpoint spaces (n : nat) : string :=
  match n with
  | O => ""
  | S k => String " " (spaces k)
  end.

(** The bracketed list of [SerializeJSONObject] and [SerializeJSONArray]. *)
Definition wrap (opening closing : string) (gap indent : string)
    (partial : list string) : string :=
  match partial with
  | [] => opening +:+ closing
  | _ =>
      if String.eqb gap "" then
        opening +:+ String.concat "," partial +:+ closing
      else
        let inner := indent +:+ gap in
        opening +:+ newline +:+ inner
          +:+ String.concat ("," +:+ newline +:+ inner) partial
          +:+ newline +:+ indent +:+ closing
  end.

(** [SerializeJSONProperty] with the current indentation. *)
Fixpoint serialize (gap indent : string) (v : json) : string :=
  match v with
  | JNull => "null"
  | JBool true => "true"
  | JBool false => "false"
  | JNum repr => repr
  | JStr s => quote s
  | JArr items =>
      wrap "[" "]" gap indent (List.map (serialize gap (indent +:+ gap)) items)
  | JObj fields =>
      wrap "{" "}" gap indent
        (List.map (λ kv, quote (fst kv)
                           +:+ (if String.eqb gap "" then ":" else ": ")
                           +:+ serialize gap (indent +:+ gap) (snd kv))
                  fields)
  end.

(** [JSON.stringify(value, null, space)] for a numeric [space]. *)
Definition stringify (v : json) (space : nat) : string :=
  serialize (spaces (Nat.min 10 space)) "" v.

(** Own-property lookup and assignment on an object's property list: an
    existing key keeps its place, a new key goes last. *)
Fixpoint get (k : string) (fields : list (string * json)) : option json :=
  match fields with
  | [] => None
  | (k', v) :: r => if String.eqb k' k then Some v else get k r
  end.

Fixpoint set (k : string) (v : json) (fields : list (string * json))
  : list (string * json) :=
  match fields with
  | [] => [(k, v)]
  | (k', v') :: r =>
      if String.eqb k' k then (k, v) :: r else (k', v') :: set k v r
  end.

End Json.

(** ** The process and its file system *)

(** A file-system node.  Paths are absolute, as the list of their segments
    below the root; the maps stand for file systems in which the ancestors of
    every entry are directories and no symbolic link is crossed, so that
    resolving a path segment by segment is what the kernel does. *)
Inductive entry :=
| File (content : string)
| Dir.

#[global] Instance entry_eq_dec : EqDecision entry.
Proof. solve_decision. Defined.

Inductive chalk := cyan | green | yellow | blue | bold.

(** What an observer of the process sees, in order. *)
Inductive event :=
| Log (style : chalk) (text : string)
| Chdir (dir : list string)
| Exec (command : string) (dir : list string) (status : N).

Record world := World {
  files : gmap (list string) entry;
  cwd : list string;
  trace : list event
}.

Inductive error :=
| ENOENT (path : list string)
| ENOTDIR (path : list string)
| EISDIR (path : list string)
| EINVAL (message : string)
| SyntaxError
| TypeError
| ExecError (code : N) (stderr : string).

Inductive outcome (A : Type) :=
| Ok (a : A)
| Throw (e : error).
Arguments Ok {A} a.
Arguments Throw {A} e.

(** An awaited computation: it either returns or throws, and leaves the world
    as it was when it stopped. *)
Definition M (A : Type) : Type := world → outcome A * world.

#[global] Instance M_ret : MRet M := λ A a w, (Ok a, w).
#[global] Instance M_bind : MBind M := λ A B k m w,
  match m w with
  | (Ok a, w') => k a w'
  | (Throw e, w') => (Throw e, w')
  end.

Definition lift {A} (r : outcome A) : M A := λ w, (r, w).

(** The output of a finished child process and the disk it leaves. *)
Record child_result := ChildResult {
  status : N;
  stdout : string;
  stderr : string;
  disk : gmap (list string) entry
}.

Definition render (segs : list string) : string :=
  "/" +:+ String.concat "/" segs.

(** Where the kernel finds [p] for a process working in [dir]; the empty path
    names nothing. *)
Definition locate (dir : list string) (p : string) : option (list string) :=
  if String.eqb p "" then None
  else Some (rev (Path.norm false
                    (if Path.isAbsolute p then [] else rev dir)
                    (Path.split p))).

(** The proper ancestors of a path, the root first. *)
Definition ancestors (p : list string) : list (list string) :=
  (λ n, take n p) <$> seq 0 (length p).

Definition is_file (o : option entry) : bool :=
  match o with Some (File _) => true | _ => false end.
Definition is_dir (o : option entry) : bool :=
  match o with Some Dir => true | _ => false end.

(** The tree below [src], each entry with the place it takes below [dest]. *)
Definition subtree (src dest : list string) (fs : gmap (list string) entry)
  : list (list string * entry) :=
  (λ pe, (dest ++ drop (length src) pe.1, pe.2))
    <$> filter (λ pe, src `prefix_of` pe.1) (map_to_list fs).

(** Copying one item: a directory is created unless it is there, a file
    replaces the file that is there ([overwrite] defaults to true); a file and
    a directory never replace each other. *)
Definition copy_item (fs : gmap (list string) entry) (item : list string * entry)
  : outcome (gmap (list string) entry) :=
  match snd item, fs !! fst item with
  | Dir, Some (File _) =>
      Throw (EINVAL "Cannot overwrite non-directory with directory")
  | File _, Some Dir =>
      Throw (EINVAL "Cannot overwrite directory with non-directory")
  | Dir, Some Dir => Ok fs
  | e, _ => Ok (<[fst item := e]> fs)
  end.

(** The items are copied one after the other; the first refusal stops the
    copy and leaves what was copied before it. *)
Fixpoint copy_items (items : list (list string * entry))
    (fs : gmap (list string) entry)
  : outcome unit * gmap (list string) entry :=
  match items with
  | [] => (Ok tt, fs)
  | item :: rest =>
      match copy_item fs item with
      | Ok fs' => copy_items rest fs'
      | Throw e => (Throw e, fs)
      end
  end.

(** [mkdirs]: every missing directory of the list is created; a file in the
    way is an error, found before anything is created. *)
Definition mkdirs (dirs : list (list string)) (fs : gmap (list string) entry)
  : outcome (gmap (list string) entry) :=
  match List.find (λ d, is_file (fs !! d)) dirs with
  | Some d => Throw (ENOTDIR d)
  | None =>
      Ok (fold_right (λ d m, match m !! d with
                             | None => <[d := Dir]> m
                             | Some _ => m
                             end) fs dirs)
  end.

Definition set_files (fs : gmap (list string) entry) (w : world) : world :=
  World fs (cwd w) (trace w).
Definition emit (e : event) (w : world) : world :=
  World (files w) (cwd w) (trace w ++ [e]).

(** [console.log(chalk.<style>(text))] *)
Definition console_log (style : chalk) (text : string) : M unit :=
  λ w, (Ok tt, emit (Log style text) w).

(** [process.cwd()] *)
Definition process_cwd : M string := λ w, (Ok (render (cwd w)), w).

(** [path.resolve(...args)] reads the working directory of the process. *)
Definition path_resolve (args : list string) : M string :=
  λ w, (Ok (Path.resolve (render (cwd w)) args), w).

(** [process.chdir(directory)] *)
Definition process_chdir (directory : string) : M unit := λ w,
  match locate (cwd w) directory with
  | None => (Throw (ENOENT []), w)
  | Some d =>
      match files w !! d with
      | Some Dir => (Ok tt, emit (Chdir d) (World (files w) d (trace w)))
      | Some (File _) => (Throw (ENOTDIR d), w)
      | None => (Throw (ENOENT d), w)
      end
  end.

(** [fs.copy(src, dest)] of fs-extra with its default options.  The source is
    looked at first; then a directory and a file may not replace each other,
    and the destination may not lie in the source; then the missing parents
    of the destination are created and the tree is copied over what is
    there. *)
Definition fs_copy (src dest : string) : M unit := λ w,
  match locate (cwd w) src with
  | None => (Throw (ENOENT []), w)
  | Some s =>
      match files w !! s with
      | None => (Throw (ENOENT s), w)
      | Some se =>
          match locate (cwd w) dest with
          | None => (Throw (ENOENT []), w)
          | Some d =>
              match copy_item (files w) (d, se) with
              | Throw e => (Throw e, w)
              | Ok _ =>
                  if bool_decide (s `prefix_of` d) then
                    (Throw (EINVAL "Cannot copy to a subdirectory of itself"), w)
                  else
                    match mkdirs (ancestors d) (files w) with
                    | Throw e => (Throw e, w)
                    | Ok fs1 =>
                        let '(r, fs2) := copy_items (subtree s d (files w)) fs1 in
                        (r, set_files fs2 w)
                    end
              end
          end
      end
  end.

(** The byte-order mark that [readJson] drops before parsing. *)
Definition strip_bom (s : string) : string :=
  match s with
  | String "239" (String "187" (String "191" r)) => r
  | _ => s
  end.

Section Scaffolder.

(** The runtime's [JSON.parse]; [None] stands for its [SyntaxError]. *)
Variable JSON_parse : string → option json.

(** What running a shell command in a directory does: the exit status and
    output of the child, and the disk it leaves. *)
Variable child : string → list string → gmap (list string) entry → child_result.

(** The path of the compiled module, [fileURLToPath(import.meta.url)]. *)
Variable __filename : string.

(** [fs.readJson(file)] *)
Definition fs_readJson (file : string) : M json := λ w,
  match locate (cwd w) file with
  | None => (Throw (ENOENT []), w)
  | Some f =>
      match files w !! f with
      | None => (Throw (ENOENT f), w)
      | Some Dir => (Throw (EISDIR f), w)
      | Some (File content) =>
          match JSON_parse (strip_bom content) with
          | Some v => (Ok v, w)
          | None => (Throw SyntaxError, w)
          end
      end
  end.

(** [fs.writeJson(file, obj, { spaces })]: the text of [JSON.stringify]
    and a final newline replace the content of the file. *)
Definition fs_writeJson (file : string) (obj : json) (spaces : nat) : M unit :=
  λ w,
  let text := Json.stringify obj spaces +:+ Json.newline in
  match locate (cwd w) file with
  | None => (Throw (ENOENT []), w)
  | Some f =>
      match files w !! f with
      | Some Dir => (Throw (EISDIR f), w)
      | Some (File _) => (Ok tt, set_files (<[f := File text]> (files w)) w)
      | None =>
          if is_dir (files w !! removelast f)
          then (Ok tt, set_files (<[f := File text]> (files w)) w)
          else (Throw (ENOENT f), w)
      end
  end.

(** [obj.name = value] in strict mode: an object gets or updates the
    property; an array takes it as an extra property, which
    [JSON.stringify] does not print; [null] and the primitives throw. *)
Definition assign_name (obj : json) (value : string) : outcome json :=
  match obj with
  | JObj fields => Ok (JObj (Json.set "name" (JStr value) fields))
  | JArr items => Ok (JArr items)
  | _ => Throw TypeError
  end.

(** [promisify(exec)(command)]: the child runs in the working directory of
    the process; a non-zero exit status rejects. *)
Definition execAsync (command : string) : M (string * string) := λ w,
  let r := child command (cwd w) (files w) in
  let w' := emit (Exec command (cwd w) (status r)) (set_files (disk r) w) in
  if (status r =? 0)%N then (Ok (stdout r, stderr r), w')
  else (Throw (ExecError (status r) (stderr r)), w').

Definition __dirname : string := Path.dirname __filename.

(** [createApp] of src/createApp.ts *)
Definition createApp (projectName targetDir : string) : M unit :=
  console_log cyan (Json.newline +:+ "Creating project: " +:+ projectName) ;;
  templateDir ← path_resolve [__dirname; "../../template"];
  fs_copy templateDir targetDir ;;
  console_log green "✔ Template copied" ;;
  let pkgJsonPath := Path.join [targetDir; "package.json"] in
  pkgJson ← fs_readJson pkgJsonPath;
  let appName := Path.basename targetDir in
  pkgJson ← lift (assign_name pkgJson appName);
  fs_writeJson pkgJsonPath pkgJson 2 ;;
  process_chdir targetDir ;;
  console_log yellow "Installing dependencies..." ;;
  execAsync "npm install" ;;
  console_log green "✔ Dependencies installed" ;;
  console_log blue (Json.newline +:+ "All done! Run the following:") ;;
  console_log bold (Json.newline +:+ "cd " +:+ projectName
                      +:+ " && npm run dev" +:+ Json.newline).

(** The commander action of bin/index.ts *)
Definition action (projectName : string) : M unit :=
  cwd ← process_cwd;
  let targetDir := Path.resolve cwd [cwd; projectName] in
  createApp targetDir projectName.

(** The process: the action runs on the positional argument; a rejection
    nobody handles ends the process with exit code 1. *)
Definition main (projectName : string) (w : world) : N * world :=
  match action projectName w with
  | (Ok _, w') => (0%N, w')
  | (Throw _, w') => (1%N, w')
  end.

End Scaffolder.

(** A process that has just started on the disk [fs] in the directory
    [dir]. *)
Definition start (fs : gmap (list string) entry) (dir : list string) : world :=
  World fs dir [].

(** ** A parser for the manifests of the examples

    A recursive-descent reader for the JSON texts used below: objects,
    arrays, strings with the two-character escapes, the three literals and
    integers of at most fifteen digits.  Any other text is refused. *)

Module Reader.

Definition is_ws (c : ascii) : bool :=
  let n := N_of_ascii c in
  ((n =? 32) || (n =? 10) || (n =? 13) || (n =? 9))%N.

Definition is_digit (c : ascii) : bool :=
  let n := N_of_ascii c in ((48 <=? n) && (n <=? 57))%N.

Fixpoint skip_ws (s : string) : string :=
  match s with
  | String c r => if is_ws c then skip_ws r else s
  | EmptyString => s
  end.

Definition unescape (c : ascii) : option ascii :=
  let n := N_of_ascii c in
  if (n =? 34)%N then Some c                       (* quote *)
  else if (n =? 92)%N then Some c                  (* backslash *)
  else if (n =? 47)%N then Some c                  (* slash *)
  else if (n =? 98)%N then Some (ascii_of_N 8)     (* b *)
  else if (n =? 102)%N then Some (ascii_of_N 12)   (* f *)
  else if (n =? 110)%N then Some (ascii_of_N 10)   (* n *)
  else if (n =? 114)%N then Some (ascii_of_N 13)   (* r *)
  else if (n =? 116)%N then Some (ascii_of_N 9)    (* t *)
  else None.

(** The characters after an opening quote, up to the closing one. *)
Fixpoint chars (s : string) : option (string * string) :=
  match s with
  | EmptyString => None
  | String c r =>
      let n := N_of_ascii c in
      if (n =? 34)%N then Some (EmptyString, r)
      else if (n <? 32)%N then None
      else if (n =? 92)%N then
        match r with
        | String e r' =>
            match unescape e, chars r' with
            | Some c', Some (t, rest) => Some (String c' t, rest)
            | _, _ => None
            end
        | EmptyString => None
        end
      else
        match chars r with
        | Some (t, rest) => Some (String c t, rest)
        | None => None
        end
  end.

Fixpoint digits (s : string) : string * string :=
  match s with
  | String c r =>
      if is_digit c then let '(d, rest) := digits r in (String c d, rest)
      else (EmptyString, s)
  | EmptyString => (EmptyString, s)
  end.

Definition literal (word : string) (v : json) (s : string)
  : option (json * string) :=
  if String.prefix word s
  then Some (v, String.substring (String.length word)
                  (String.length s - String.length word) s)
  else None.

Definition integer (negative : bool) (s : string) : option (json * string) :=
  let '(d, rest) := digits s in
  match d, rest with
  | EmptyString, _ => None
  | String "0" (String _ _), _ => None
  | _, String "." _ | _, String "e" _ | _, String "E" _ => None
  | _, _ =>
      if 15 <? String.length d then None
      else if negative && negb (String.eqb d "0")
      then Some (JNum (String "-" d), rest)
      else Some (JNum d, rest)
  end.

Section Members.
Variable value : string → option (json * string).

(** The elements after an opening bracket and a first element. *)
Fixpoint elements (n : nat) (acc : list json) (s : string)
  : option (json * string) :=
  match n, skip_ws s with
  | _, String "]" r => Some (JArr (rev acc), r)
  | S k, String "," r =>
      match value r with
      | Some (v, rest) => elements k (v :: acc) rest
      | None => None
      end
  | _, _ => None
  end.

Definition member (s : string) : option (string * json * string) :=
  match skip_ws s with
  | String q r =>
      if (N_of_ascii q =? 34)%N then
        match chars r with
        | Some (k, rest) =>
            match skip_ws rest with
            | String ":" rest' =>
                match value rest' with
                | Some (v, rest'') => Some (k, v, rest'')
                | None => None
                end
            | _ => None
            end
        | None => None
        end
      else None
  | EmptyString => None
  end.

(** The members after an opening brace and a first member; a repeated
    key keeps its first place and takes the last value. *)
Fixpoint members (n : nat) (acc : list (string * json)) (s : string)
  : option (json * string) :=
  match n, skip_ws s with
  | _, String "}" r => Some (JObj acc, r)
  | S k, String "," r =>
      match member r with
      | Some (key, v, rest) => members k (Json.set key v acc) rest
      | None => None
      end
  | _, _ => None
  end.
End Members.

Fixpoint value (fuel : nat) (s : string) : option (json * string) :=
  match fuel with
  | O => None
  | S fuel =>
      match skip_ws s with
      | String "{" r =>
          match skip_ws r with
          | String "}" r' => Some (JObj [], r')
          | _ =>
              match member (value fuel) r with
              | Some (k, v, rest) =>
                  members (value fuel) (String.length rest) [(k, v)] rest
              | None => None
              end
          end
      | String "[" r =>
          match skip_ws r with
          | String "]" r' => Some (JArr [], r')
          | _ =>
              match value fuel r with
              | Some (v, rest) =>
                  elements (value fuel) (String.length rest) [v] rest
              | None => None
              end
          end
      | String "t" _ => literal "true" (JBool true) (skip_ws s)
      | String "f" _ => literal "false" (JBool false) (skip_ws s)
      | String "n" _ => literal "null" JNull (skip_ws s)
      | String "-" r => integer true r
      | String c r =>
          if (N_of_ascii c =? 34)%N then
            match chars r with
            | Some (t, rest) => Some (JStr t, rest)
            | None => None
            end
          else integer false (String c r)
      | EmptyString => None
      end
  end.

(** The whole text is one value; its length bounds the nesting. *)
Definition parse (s : string) : option json :=
  match value (S (String.length s)) s with
  | Some (v, rest) =>
      if String.eqb (skip_ws rest) "" then Some v else None
  | None => None
  end.

End Reader.

(** ** The scenario of the README *)

Module Demo.

(** The manifest of the README's template. *)
Definition manifest_fields : list (string * json) :=
  [("name", JStr "template"); ("version", JStr "1.0.0");
   ("scripts", JObj [("dev", JStr "vite")]);
   ("dependencies",
     JObj [("react", JStr "^18.2.0"); ("react-dom", JStr "^18.2.0")]);
   ("devDependencies", JObj [("vite", JStr "^5.0.0")])].

Definition manifest : json := JObj manifest_fields.

Definition manifest_text : string :=
  Json.stringify manifest 4 +:+ Json.newline.

Definition module_file : string := "/opt/tool/dist/src/createApp.js".

Definition disk0 : gmap (list string) entry :=
  list_to_map
    [([], Dir); (["opt"], Dir); (["opt"; "tool"], Dir);
     (["opt"; "tool"; "template"], Dir);
     (["opt"; "tool"; "template"; "index.html"], File "<div id=root>");
     (["opt"; "tool"; "template"; "package.json"], File manifest_text);
     (["opt"; "tool"; "template"; "src"], Dir);
     (["opt"; "tool"; "template"; "src"; "main.jsx"], File "render()");
     (["work"], Dir)].

Definition home : list string := ["work"].

Definition touch (p : list string) (e : entry)
    (fs : gmap (list string) entry) : gmap (list string) entry :=
  match fs !! p with
  | None => <[p := e]> fs
  | Some _ => fs
  end.

(** An install that succeeds: it adds the lock file and the modules
    directory to its working directory where there is none, and touches
    nothing else. *)
Definition npm_ok (command : string) (dir : list string)
    (fs : gmap (list string) entry) : child_result :=
  ChildResult 0 "added 3 packages" ""
    (touch (dir ++ ["package-lock.json"]) (File "{}")
       (touch (dir ++ ["node_modules"]) Dir fs)).

(** An install that fails and leaves the disk as it found it. *)
Definition npm_fail (command : string) (dir : list string)
    (fs : gmap (list string) entry) : child_result :=
  ChildResult 1 "" "npm ERR! network" fs.

(** The installation of a tool whose template is missing. *)
Definition stray_module_file : string := "/opt/other/dist/src/createApp.js".

Definition run (name : string) : N * world :=
  main Reader.parse npm_ok module_file name (start disk0 home).

(** The same scenario with an install that fails. *)
Definition run_failing (name : string) : N * world :=
  main Reader.parse npm_fail module_file name (start disk0 home).

(** A disk on which the project directory is there already, with a manifest
    of its own and a file the template does not have. *)
Definition disk1 : gmap (list string) entry :=
  <[["work"; "demo"; "notes.txt"] := File "keep"]>
    (<[["work"; "demo"; "package.json"] := File "{ broken"]>
       (<[["work"; "demo"] := Dir]> disk0)).

Definition run_again (name : string) : N * world :=
  main Reader.parse npm_ok module_file name (start disk1 home).

(** The [name] property of the manifest in the directory [d], as the
    reader of the examples reads it. *)
Definition written_name (fs : gmap (list string) entry) (d : list string)
  : option json :=
  match fs !! (d ++ ["package.json"]) with
  | Some (File text) =>
      match Reader.parse text with
      | Some (JObj fields) => Json.get "name" fields
      | _ => None
      end
  | _ => None
  end.

End Demo.

(** A segment that names an entry: not empty, not a dot segment, and free of
    separators. *)
Definition sep_free (s : string) : Prop := Path.split s = [s].
Definition kept (s : string) : Prop := s ≠ "" ∧ s ≠ "." ∧ s ≠ "..".
Definition seg_ok (s : string) : Prop := kept s ∧ sep_free s.

(** Relative normalization keeps leading [..] segments; nothing it keeps is
    empty or a single dot. *)
Definition relnf (st : list string) : Prop :=
  Forall (λ s, s ≠ "" ∧ s ≠ ".") st.

#[global] Instance sep_free_dec s : Decision (sep_free s).
Proof. unfold sep_free. apply _. Defined.
#[global] Instance kept_dec s : Decision (kept s).
Proof. unfold kept. apply _. Defined.
#[global] Instance seg_ok_dec s : Decision (seg_ok s).
Proof. unfold seg_ok. apply _. Defined.

(** * The stages of a run *)

(** What a finished copy of the tree at [s] to [d] leaves: the tree is below
    [d], the entries that no copied entry replaced are kept, and the parents
    of [d] are directories. *)
Definition copied (fs : gmap (list string) entry) (s d : list string)
    (fs1 : gmap (list string) entry) : Prop :=
  (∀ rel e, fs !! (s ++ rel) = Some e → fs1 !! (d ++ rel) = Some e)
  ∧ (∀ p e, fs !! p = Some e →
            (∀ rel, p = d ++ rel → fs !! (s ++ rel) = None) →
            fs1 !! p = Some e)
  ∧ (∀ p, p ∈ ancestors d → fs1 !! p = Some Dir).

Section Stages.

Variable JSON_parse : string → option json.
Variable child : string → list string → gmap (list string) entry → child_result.
Variable __filename : string.

(** The bundled template, as [createApp] computes its path in a process
    working in [dir], and the place of that path. *)
Definition template (dir : list string) : string :=
  Path.resolve (render dir) [__dirname __filename; "../../template"].
Definition template_place (dir : list string) : list string :=
  default [] (locate dir (template dir)).

(** The disk on which the install starts: the template copied to the place
    [d] of [td], and the manifest there rewritten with the new name. *)
Inductive prepared (fs : gmap (list string) entry) (dir : list string)
    (td : string) : list string → gmap (list string) entry → Prop :=
| Prepared d fs1 content v v' :
    locate dir td = Some d →
    is_Some (fs !! template_place dir) →
    copied fs (template_place dir) d fs1 →
    fs1 !! (d ++ ["package.json"]) = Some (File content) →
    JSON_parse (strip_bom content) = Some v →
    assign_name v (Path.basename td) = Ok v' →
    prepared fs dir td d
      (<[d ++ ["package.json"]
         := File (Json.stringify v' 2 +:+ Json.newline)]> fs1).

Definition lines_before (pn : string) : list event :=
  [Log cyan (Json.newline +:+ "Creating project: " +:+ pn);
   Log green "✔ Template copied"].
Definition lines_install (d : list string) (st : N) : list event :=
  [Chdir d; Log yellow "Installing dependencies...";
   Exec "npm install" d st].
Definition lines_after (pn : string) : list event :=
  [Log green "✔ Dependencies installed";
   Log blue (Json.newline +:+ "All done! Run the following:");
   Log bold (Json.newline +:+ "cd " +:+ pn +:+ " && npm run dev"
               +:+ Json.newline)].

(** How far [createApp] gets, with what it leaves behind. *)
Inductive Stage (pn td : string) (w : world) : outcome unit → world → Prop :=
| Stage_copy e w1 :
    cwd w1 = cwd w →
    trace w1 = trace w ++ [Log cyan (Json.newline +:+ "Creating project: " +:+ pn)] →
    Stage pn td w (Throw e) w1
| Stage_patch e d fs1 :
    locate (cwd w) td = Some d →
    copied (files w) (template_place (cwd w)) d fs1 →
    Stage pn td w (Throw e)
      (World fs1 (cwd w) (trace w ++ lines_before pn))
| Stage_chdir e d fs2 :
    prepared (files w) (cwd w) td d fs2 →
    fs2 !! d ≠ Some Dir →
    Stage pn td w (Throw e)
      (World fs2 (cwd w) (trace w ++ lines_before pn))
| Stage_install d fs2 r :
    prepared (files w) (cwd w) td d fs2 →
    fs2 !! d = Some Dir →
    r = child "npm install" d fs2 →
    status r ≠ 0%N →
    Stage pn td w (Throw (ExecError (status r) (stderr r)))
      (World (disk r) d
         (trace w ++ lines_before pn ++ lines_install d (status r)))
| Stage_done d fs2 r :
    prepared (files w) (cwd w) td d fs2 →
    fs2 !! d = Some Dir →
    r = child "npm install" d fs2 →
    status r = 0%N →
    Stage pn td w (Ok tt)
      (World (disk r) d
         (trace w ++ lines_before pn ++ lines_install d 0 ++ lines_after pn)).

(** The install removes nothing: what it finds is there when it exits,
    a file as a file and a directory as a directory. *)
Definition child_keeps : Prop :=
  ∀ command dir fs p e,
    fs !! p = Some e →
    ∃ e', disk (child command dir fs) !! p = Some e'
          ∧ is_dir (Some e') = is_dir (Some e).

(** The [targetDir] of the action: the absolute path resolved from the
    working directory and the argument. *)
Definition target (dir : list string) (name : string) : string :=
  Path.resolve (render dir) [render dir; name].

End Stages.

(** A parsed manifest on which a property can be set: an object or an
    array. *)
Definition is_container (v : json) : bool :=
  match v with
  | JObj _ | JArr _ => true
  | _ => false
  end.

(** The first line of every run. *)
Definition line_creating (pn : string) : event :=
  Log cyan (Json.newline +:+ "Creating project: " +:+ pn).

(** ** Scenarios off the main path *)

Module Cases.

Definition template_manifest : list string :=
  ["opt"; "tool"; "template"; "package.json"].

(** The template ships a manifest that is the JSON text [null]. *)
Definition null_manifest : gmap (list string) entry :=
  <[template_manifest := File "null"]> Demo.disk0.

(** The template ships a manifest without a [name]. *)
Definition nameless_fields : list (string * json) :=
  [("version", JStr "1.0.0"); ("private", JBool true)].
Definition nameless_manifest : gmap (list string) entry :=
  <[template_manifest
    := File (Json.stringify (JObj nameless_fields) 2 +:+ Json.newline)]>
    Demo.disk0.

(** The template ships no manifest. *)
Definition no_manifest : gmap (list string) entry :=
  delete template_manifest Demo.disk0.



Definition run_on (fs : gmap (list string) entry) (dir : list string)
    (name : string) : N * world :=
  main Reader.parse Demo.npm_ok Demo.module_file name (start fs dir).

End Cases.

(** ** Proof steps used more than once *)

(** Projections of an updated world are computed, and the events appended
    one by one are gathered in one list. *)
Ltac tidy_world :=
  unfold emit, set_files in *; cbn [cwd files trace] in *;
  rewrite <- ?app_assoc; cbn [app].

(** The event [H] is said to be in a list of events of other kinds. *)
Ltac no_event H :=
  repeat (apply elem_of_cons in H as [H|H]; [discriminate H|]);
  by apply elem_of_nil in H.

(** A run is the pair of its exit code and its final world; the exit code
    is found by evaluation. *)
Ltac run_is_pair r :=
  transitivity (r.1, r.2);
  [apply surjective_pairing | try (f_equal; vm_compute; reflexivity)].

(** * Facts about paths *)

Section PathFacts.

Lemma split_nonempty s : Path.split s ≠ [].
Proof.
  destruct s as [|c s]; simpl; [done|].
  destruct (Path.is_sep c); [done|]. by destruct (Path.split s).
Qed.

Lemma split_cons_sep s : Path.split (String "/" s) = "" :: Path.split s.
Proof. reflexivity. Qed.

Lemma split_app a b :
  Path.split (a +:+ String "/" b) = Path.split a ++ Path.split b.
Proof.
  induction a as [|c a IH]; simpl; [done|].
  rewrite IH. destruct (Path.is_sep c); [done|].
  pose proof (split_nonempty a). by destruct (Path.split a).
Qed.

Lemma is_sep_true c : Path.is_sep c = true → c = "/"%char.
Proof. unfold Path.is_sep. by intros ?%Ascii.eqb_eq. Qed.

Lemma split_segments_sep_free s : Forall sep_free (Path.split s).
Proof.
  induction s as [|c s IH]; simpl.
  - by constructor.
  - destruct (Path.is_sep c) eqn:Hc.
    + by constructor.
    + pose proof (split_nonempty s) as Hne.
      destruct (Path.split s) as [|x r]; [done|].
      inversion IH as [|? ? Hx Hr]; subst. constructor; [|done].
      unfold sep_free in *. simpl. by rewrite Hc, Hx.
Qed.

Lemma split_concat l :
  l ≠ [] → Forall sep_free l → Path.split (String.concat "/" l) = l.
Proof.
  induction l as [|x l IH]; [done|]. intros _ Hall.
  inversion Hall as [|? ? Hx Hl]; subst.
  destruct l as [|y l]; [done|].
  change (String.concat "/" (x :: y :: l))
    with (x +:+ String "/" (String.concat "/" (y :: l))).
  rewrite split_app, IH by done. by rewrite Hx.
Qed.

Lemma norm_app b st l1 l2 :
  Path.norm b st (l1 ++ l2) = Path.norm b (Path.norm b st l1) l2.
Proof. unfold Path.norm. apply fold_left_app. Qed.

Lemma norm_step_kept b st s : kept s → Path.norm_step b st s = s :: st.
Proof.
  intros (H1 & H2 & H3). unfold Path.norm_step.
  apply String.eqb_neq in H1, H2, H3. by rewrite H1, H2, H3.
Qed.

Lemma norm_kept b st l :
  Forall kept l → Path.norm b st l = rev l ++ st.
Proof.
  revert st. induction l as [|x l IH]; intros st Hall; [done|].
  inversion Hall; subst.
  change (Path.norm b st (x :: l))
    with (Path.norm b (Path.norm_step b st x) l).
  rewrite norm_step_kept, IH by done. simpl.
  by rewrite <- app_assoc.
Qed.

(** Every segment that normalization keeps below the root names an entry. *)
Lemma norm_step_false_kept st s :
  Forall kept st → Forall kept (Path.norm_step false st s).
Proof.
  intros Hst. unfold Path.norm_step.
  destruct (String.eqb s "") eqn:E1; [done|].
  destruct (String.eqb s ".") eqn:E2; [done|]. simpl.
  destruct (String.eqb s "..") eqn:E3.
  - destruct st as [|t r]; [done|].
    inversion Hst; subst. by destruct (String.eqb t "..").
  - constructor; [|done].
    apply String.eqb_neq in E1, E2, E3. done.
Qed.

Lemma norm_false_kept st l :
  Forall kept st → Forall kept (Path.norm false st l).
Proof.
  revert st. induction l as [|x l IH]; intros st Hst; [done|].
  apply (IH (Path.norm_step false st x)). by apply norm_step_false_kept.
Qed.

Lemma norm_step_relnf b st s : relnf st → relnf (Path.norm_step b st s).
Proof.
  intros Hst. unfold Path.norm_step.
  destruct (String.eqb s "") eqn:E1; [done|].
  destruct (String.eqb s ".") eqn:E2; [done|]. simpl.
  destruct (String.eqb s "..") eqn:E3.
  - destruct st as [|t r].
    + destruct b; [|done]. by constructor.
    + inversion Hst; subst.
      destruct (String.eqb t ".."), b; try done. by constructor.
  - apply String.eqb_neq in E1, E2. by constructor.
Qed.

Lemma norm_relnf b st l : relnf st → relnf (Path.norm b st l).
Proof.
  revert st. induction l as [|x l IH]; intros st Hst; [done|].
  apply (IH (Path.norm_step b st x)). by apply norm_step_relnf.
Qed.

Lemma norm_step_sep_free b st s :
  Forall sep_free st → sep_free s → Forall sep_free (Path.norm_step b st s).
Proof.
  intros Hst Hs. unfold Path.norm_step.
  destruct (_ || _); [done|].
  destruct (String.eqb s "..").
  - destruct st as [|t r].
    + destruct b; [|done]. by repeat constructor.
    + inversion Hst; subst.
      destruct (String.eqb t ".."), b; try done. by repeat constructor.
  - by constructor.
Qed.

Lemma norm_sep_free b st l :
  Forall sep_free st → Forall sep_free l → Forall sep_free (Path.norm b st l).
Proof.
  revert st. induction l as [|x l IH]; intros st Hst Hl; [done|].
  inversion Hl; subst.
  apply (IH (Path.norm_step b st x)); [|done]. by apply norm_step_sep_free.
Qed.

Lemma norm_snoc b st l x :
  Path.norm b st (l ++ [x]) = Path.norm_step b (Path.norm b st l) x.
Proof. by rewrite norm_app. Qed.

(** Resolving a relative path that was normalized first finds the same
    place as resolving the path itself. *)
Lemma norm_rel_abs base st l :
  relnf st →
  Path.norm false base (rev (Path.norm true st l))
  = Path.norm false (Path.norm false base (rev st)) l.
Proof.
  revert st. induction l as [|x l IH]; intros st Hst; [done|].
  change (Path.norm true st (x :: l))
    with (Path.norm true (Path.norm_step true st x) l).
  rewrite IH by (by apply norm_step_relnf).
  change (Path.norm false (Path.norm false base (rev st)) (x :: l))
    with (Path.norm false
            (Path.norm_step false (Path.norm false base (rev st)) x) l).
  f_equal. unfold Path.norm_step.
  destruct (String.eqb x "") eqn:E1; [done|].
  destruct (String.eqb x ".") eqn:E2; [done|]. simpl.
  destruct (String.eqb x "..") eqn:E3.
  - apply String.eqb_eq in E3; subst x.
    destruct st as [|t r]; [done|].
    inversion Hst as [|? ? [Ht1 Ht2] Hr]; subst.
    destruct (String.eqb t "..") eqn:E4.
    + apply String.eqb_eq in E4; subst t.
      change (rev (".." :: ".." :: r)) with (rev (".." :: r) ++ [".."]).
      by rewrite norm_snoc.
    + simpl. rewrite norm_snoc.
      rewrite norm_step_kept.
      * by rewrite E4.
      * apply String.eqb_neq in E4. done.
  - simpl. rewrite norm_snoc.
    unfold Path.norm_step. by rewrite E1, E2, E3.
Qed.

Lemma sep_free_not_absolute s : s ≠ "" → sep_free s → Path.isAbsolute s = false.
Proof.
  destruct s as [|c s]; [done|]. intros _. unfold sep_free. simpl.
  destruct (Path.is_sep c); [|done]. intros [=].
Qed.

Lemma isAbsolute_app a b : a ≠ "" → Path.isAbsolute (a +:+ b) = Path.isAbsolute a.
Proof. by destruct a. Qed.

Lemma concat_not_absolute x l :
  x ≠ "" → sep_free x → Path.isAbsolute (String.concat "/" (x :: l)) = false.
Proof.
  intros Hx Hs. destruct l as [|y l]; simpl.
  - by apply sep_free_not_absolute.
  - rewrite isAbsolute_app by done. by apply sep_free_not_absolute.
Qed.

Lemma sep_free_dots : sep_free "..".
Proof. reflexivity. Qed.

Lemma render_split dir :
  Forall seg_ok dir →
  Path.norm false [] (Path.split (render dir)) = rev dir.
Proof.
  intros Hdir. unfold render.
  change ("/" +:+ String.concat "/" dir) with (String "/" (String.concat "/" dir)).
  rewrite split_cons_sep.
  destruct dir as [|x dir]; [done|].
  rewrite split_concat.
  - change (Path.norm false [] ("" :: x :: dir))
      with (Path.norm false [] (x :: dir)).
    rewrite norm_kept, app_nil_r; [done|].
    eapply Forall_impl; [exact Hdir|]. by intros ? [? ?].
  - done.
  - eapply Forall_impl; [exact Hdir|]. by intros ? [? ?].
Qed.

Lemma concat_snoc_nonempty l f :
  Forall sep_free l → sep_free f → f ≠ "" →
  String.concat "/" (l ++ [f]) ≠ "".
Proof.
  intros Hl Hf Hne Hq.
  assert (Path.split (String.concat "/" (l ++ [f])) = l ++ [f]) as Hsplit.
  { apply split_concat; [by destruct l|].
    apply Forall_app. split; [done|]. by constructor. }
  rewrite Hq in Hsplit. simpl in Hsplit.
  destruct l as [|x [|y l]]; simplify_eq/=.
Qed.

Lemma locate_absolute dir q :
  locate dir (String "/" q) = Some (rev (Path.norm false [] (Path.split q))).
Proof. reflexivity. Qed.

Lemma locate_relative dir q :
  q ≠ "" → Path.isAbsolute q = false →
  locate dir q = Some (rev (Path.norm false (rev dir) (Path.split q))).
Proof.
  intros Hq Habs. unfold locate.
  apply String.eqb_neq in Hq. by rewrite Hq, Habs.
Qed.

(** The file [f] of the directory [td], addressed through [path.join], is
    the entry [f] below the place of [td]. *)
Lemma locate_join dir td f :
  td ≠ "" → seg_ok f →
  locate dir (Path.join [td; f]) = (λ d, d ++ [f]) <$> locate dir td.
Proof.
  intros Htd [(Hf1 & Hf2 & Hf3) Hf].
  assert (kept f) as Hkept by done.
  unfold Path.join.
  rewrite filter_cons_True by done. rewrite filter_cons_True by done.
  rewrite filter_nil.
  change (String.concat "/" [td; f]) with (td +:+ String "/" f).
  unfold Path.normalize, Path.normalizeString, Path.ends_with_sep.
  assert (String.eqb (td +:+ String "/" f) "" = false) as ->.
  { apply String.eqb_neq. by destruct td. }
  rewrite isAbsolute_app by done.
  rewrite split_app, Hf, last_snoc, norm_snoc.
  assert ((match td +:+ String "/" f with
           | "" => false
           | String _ _ => match Some f with Some "" => true | _ => false end
           end) = false) as ->.
  { destruct td; [done|]. simpl. by destruct f. }
  rewrite norm_step_kept by done.
  set (N := Path.norm (negb (Path.isAbsolute td)) [] (Path.split td)).
  assert (Forall sep_free N) as HNsep.
  { apply norm_sep_free; [done|]. apply split_segments_sep_free. }
  assert (relnf N) as HNrel by (apply norm_relnf; constructor).
  change (rev (f :: N)) with (rev N ++ [f]).
  assert (String.eqb (String.concat "/" (rev N ++ [f])) "" = false) as ->.
  { apply String.eqb_neq, concat_snoc_nonempty; [|done..].
    by apply Forall_rev. }
  assert (Path.split (String.concat "/" (rev N ++ [f])) = rev N ++ [f])
    as Hsplit.
  { apply split_concat; [by destruct (rev N)|].
    apply Forall_app. split; [by apply Forall_rev|]. by constructor. }
  assert (locate dir td
          = Some (rev (Path.norm false
                         (if Path.isAbsolute td then [] else rev dir)
                         (Path.split td)))) as ->.
  { unfold locate. apply String.eqb_neq in Htd. by rewrite Htd. }
  subst N. destruct (Path.isAbsolute td) eqn:Habs; cbv [negb] in *.
  - change ("/" +:+ ?q) with (String "/" q).
    rewrite locate_absolute, Hsplit.
    rewrite norm_snoc, norm_kept, rev_involutive, app_nil_r.
    + by rewrite norm_step_kept.
    + apply Forall_rev. by apply norm_false_kept.
  - set (N := Path.norm true [] (Path.split td)) in *.
    rewrite locate_relative.
    + rewrite Hsplit, norm_snoc. unfold N.
      rewrite norm_rel_abs by constructor. simpl.
      by rewrite norm_step_kept.
    + apply concat_snoc_nonempty; [|done..]. by apply Forall_rev.
    + assert (Forall sep_free (rev N ++ [f])) as Hall.
      { apply Forall_app. split; [by apply Forall_rev|]. by constructor. }
      assert (relnf (rev N ++ [f])) as Hrel.
      { apply Forall_app. split; [by apply Forall_rev|]. by constructor. }
      destruct (rev N ++ [f]) as [|x l] eqn:E; [by destruct (rev N)|].
      inversion Hall as [|? ? Hx _]. inversion Hrel as [|? ? [Hx1 _] _].
      by apply concat_not_absolute.
Qed.

(** [path.resolve(process.cwd(), p)] prints the place where the kernel
    finds [p]. *)
Lemma resolve_locate dir p d :
  Forall seg_ok dir → locate dir p = Some d →
  Path.resolve (render dir) [render dir; p] = render d.
Proof.
  intros Hdir. unfold locate.
  destruct (String.eqb p "") eqn:Hp; [done|]. intros [= <-].
  assert (String.eqb (render dir) "" = false) as Hne by reflexivity.
  assert (Path.isAbsolute (render dir) = true) as Hroot by reflexivity.
  unfold Path.resolve. change (rev [render dir; p]) with [p; render dir].
  cbn [Path.resolve_loop]. rewrite Hp, Hne, Hroot.
  destruct (Path.isAbsolute p) eqn:Habs; cbv [negb]; unfold Path.normalizeString.
  - change (p +:+ "/" +:+ "") with (p +:+ String "/" "").
    rewrite split_app. change (Path.split "") with [""].
    by rewrite norm_snoc.
  - change (render dir +:+ "/" +:+ p +:+ "/" +:+ "")
      with (render dir +:+ String "/" (p +:+ String "/" "")).
    rewrite !split_app. change (Path.split "") with [""].
    by rewrite app_assoc, norm_snoc, norm_app, render_split.
Qed.

Lemma last_nonempty_split (l : list string) x :
  last (filter (λ s, s ≠ "") l) = Some x →
  ∃ l1 l2, l = l1 ++ x :: l2 ∧ x ≠ "" ∧ Forall (λ y, y = "") l2.
Proof.
  induction l as [|y l IH] using rev_ind; [done|].
  rewrite filter_app. destruct (decide (y = "")) as [->|Hy].
  - rewrite filter_cons_False, filter_nil, app_nil_r by naive_solver.
    intros (l1 & l2 & -> & Hx & Hl2)%IH.
    exists l1, (l2 ++ [""]). rewrite <- app_assoc. split; [done|].
    split; [done|]. apply Forall_app. split; [done|]. by constructor.
  - rewrite filter_cons_True, filter_nil, last_snoc by done.
    intros [= ->]. exists l, []. by repeat split.
Qed.

Lemma norm_empty_segments b st l :
  Forall (λ y, y = "") l → Path.norm b st l = st.
Proof.
  induction 1 as [|y l -> _ IH]; [done|].
  change (Path.norm b st ("" :: l)) with (Path.norm b st l). exact IH.
Qed.

Lemma filter_nonempty_id (l : list string) :
  Forall (λ s, s ≠ "") l → filter (λ s, s ≠ "") l = l.
Proof.
  induction 1 as [|x l Hx _ IH]; [done|].
  by rewrite filter_cons_True, IH.
Qed.

(** When the last segment of the path is a name, the entry the path is
    resolved to has that name. *)
Lemma basename_locate dir p d :
  locate dir p = Some d → kept (Path.basename p) →
  last d = Some (Path.basename p).
Proof.
  unfold locate. destruct (String.eqb p ""); [done|]. intros [= <-].
  unfold Path.basename.
  destruct (last (filter _ (Path.split p))) as [x|] eqn:Hlast;
    [|by intros [? _]].
  simpl. intros Hx.
  apply last_nonempty_split in Hlast as (l1 & l2 & -> & _ & Hl2).
  rewrite norm_app.
  change (Path.norm false ?st (x :: l2))
    with (Path.norm false (Path.norm_step false st x) l2).
  rewrite norm_empty_segments, norm_step_kept by done.
  simpl. apply last_snoc.
Qed.

Lemma basename_render d :
  Forall seg_ok d → Path.basename (render d) = default "" (last d).
Proof.
  intros Hd. unfold Path.basename, render.
  change ("/" +:+ String.concat "/" d) with (String "/" (String.concat "/" d)).
  rewrite split_cons_sep, filter_cons_False by naive_solver.
  destruct d as [|x d]; [done|].
  rewrite split_concat.
  - rewrite filter_nonempty_id; [done|].
    eapply Forall_impl; [exact Hd|]. by intros ? [(? & _) _].
  - done.
  - eapply Forall_impl; [exact Hd|]. by intros ? [_ ?].
Qed.

Lemma locate_seg_ok dir p d :
  Forall seg_ok dir → locate dir p = Some d → Forall seg_ok d.
Proof.
  intros Hdir. unfold locate. destruct (String.eqb p ""); [done|].
  intros [= <-]. apply Forall_rev.
  assert (Forall seg_ok (if Path.isAbsolute p then [] else rev dir)) as Hst.
  { destruct (Path.isAbsolute p); [done|]. by apply Forall_rev. }
  apply Forall_and. split.
  - apply norm_false_kept. eapply Forall_impl; [exact Hst|]. by intros ? [? _].
  - apply norm_sep_free; [|apply split_segments_sep_free].
    eapply Forall_impl; [exact Hst|]. by intros ? [_ ?].
Qed.

(** The base name of the argument is the base name of the resolved target
    directory whenever it is a name, that is, neither empty nor a dot
    segment. *)
Lemma basename_target dir p :
  Forall seg_ok dir → kept (Path.basename p) →
  Path.basename (Path.resolve (render dir) [render dir; p]) = Path.basename p.
Proof.
  intros Hdir Hkept.
  destruct (locate dir p) as [d|] eqn:Hd.
  - rewrite (resolve_locate _ _ _ Hdir Hd).
    rewrite basename_render by (by eapply locate_seg_ok).
    by rewrite (basename_locate _ _ _ Hd Hkept).
  - unfold locate in Hd. destruct (String.eqb p "") eqn:Hp; [|done].
    apply String.eqb_eq in Hp. subst p. by destruct Hkept.
Qed.

End PathFacts.

(** * Facts about the file-system operations *)

Section FsFacts.

Implicit Types fs : gmap (list string) entry.

Lemma copy_item_ok fs k e fs' :
  copy_item fs (k, e) = Ok fs' →
  fs' !! k = Some e ∧ ∀ k', k' ≠ k → fs' !! k' = fs !! k'.
Proof.
  unfold copy_item. simpl.
  destruct e, (fs !! k) as [[]|] eqn:Hk; intros [= <-];
    (split; [by rewrite ?lookup_insert_eq
            | by intros; rewrite ?lookup_insert_ne]).
Qed.

Lemma copy_items_ok items fs fs' :
  NoDup items.*1 →
  copy_items items fs = (Ok tt, fs') →
  (∀ k e, (k, e) ∈ items → fs' !! k = Some e)
  ∧ (∀ k, k ∉ items.*1 → fs' !! k = fs !! k).
Proof.
  revert fs. induction items as [|[k0 e0] items IH]; intros fs Hnd Hrun.
  - simpl in Hrun. injection Hrun as <-. split; [|done].
    intros k e Hin. by apply elem_of_nil in Hin.
  - simpl in Hrun, Hnd. apply NoDup_cons in Hnd as [Hfresh Hnd].
    destruct (copy_item fs (k0, e0)) as [fs1|] eqn:Hitem; [|done].
    apply copy_item_ok in Hitem as [Hk0 Hother].
    destruct (IH _ Hnd Hrun) as [Hin Hout]. split.
    + intros k e [[= -> ->]|Hrest]%elem_of_cons; [|by apply Hin].
      by rewrite Hout.
    + intros k [Hne Hk]%not_elem_of_cons.
      rewrite Hout by done. by apply Hother.
Qed.

Lemma elem_of_subtree s d fs k e :
  (k, e) ∈ subtree s d fs ↔ ∃ rel, k = d ++ rel ∧ fs !! (s ++ rel) = Some e.
Proof.
  unfold subtree. rewrite list_elem_of_fmap. split.
  - intros ([p e'] & Heq & Hin). simpl in Heq. injection Heq as -> ->.
    apply list_elem_of_filter in Hin as [[rel Hp] Hin]. simpl in Hp. subst p.
    apply elem_of_map_to_list in Hin.
    exists rel. by rewrite drop_app_length.
  - intros (rel & -> & Hrel). exists (s ++ rel, e). simpl.
    rewrite drop_app_length. split; [done|].
    apply list_elem_of_filter. split; [by exists rel|].
    by apply elem_of_map_to_list.
Qed.

Lemma subtree_keys_NoDup s d fs : NoDup (subtree s d fs).*1.
Proof.
  unfold subtree. rewrite <- list_fmap_compose.
  apply NoDup_fmap_2_strong.
  - intros [p1 e1] [p2 e2] Hin1 Hin2.
    apply list_elem_of_filter in Hin1 as [[r1 Hp1] H1].
    apply list_elem_of_filter in Hin2 as [[r2 Hp2] H2].
    simpl in *. subst p1 p2.
    apply elem_of_map_to_list in H1, H2.
    rewrite !drop_app_length. intros ->%app_inv_head.
    congruence.
  - apply NoDup_filter, NoDup_map_to_list.
Qed.

Lemma subtree_keys s d fs k :
  k ∈ (subtree s d fs).*1 ↔ ∃ rel, k = d ++ rel ∧ is_Some (fs !! (s ++ rel)).
Proof.
  rewrite list_elem_of_fmap. split.
  - intros ([k' e] & -> & (rel & -> & Hrel)%elem_of_subtree). by exists rel.
  - intros (rel & -> & [e He]). exists (d ++ rel, e). split; [done|].
    apply elem_of_subtree. by exists rel.
Qed.

Lemma elem_of_ancestors (p q : list string) :
  q ∈ ancestors p ↔ ∃ r, r ≠ [] ∧ p = q ++ r.
Proof.
  unfold ancestors. rewrite list_elem_of_fmap. split.
  - intros (n & -> & Hn%elem_of_seq). exists (drop n p). split.
    + intros Hnil. apply (f_equal length) in Hnil.
      rewrite length_drop in Hnil. simpl in Hnil. lia.
    + by rewrite take_drop.
  - intros (r & Hr & ->). exists (length q). split.
    + by rewrite take_app_length.
    + apply elem_of_seq. rewrite length_app.
      destruct r; [done|]. simpl. lia.
Qed.

Lemma mkdirs_ok dirs fs fs' :
  mkdirs dirs fs = Ok fs' →
  (∀ p, p ∈ dirs → fs' !! p = Some Dir)
  ∧ (∀ p e, fs !! p = Some e → fs' !! p = Some e)
  ∧ (∀ p, p ∉ dirs → fs' !! p = fs !! p).
Proof.
  unfold mkdirs.
  destruct (List.find _ dirs) as [d|] eqn:Hfind; [done|]. intros [= <-].
  assert (∀ d, d ∈ dirs → is_file (fs !! d) = false) as Hfree.
  { intros d Hd%list_elem_of_In.
    eapply (find_none _ _ Hfind) in Hd. done. }
  clear Hfind. induction dirs as [|d dirs IH]; simpl.
  - split; [|done]. intros p Hp. by apply elem_of_nil in Hp.
  - destruct IH as (IH1 & IH2 & IH3).
    { intros d' Hd'. apply Hfree. by right. }
    set (m := fold_right _ fs dirs) in *.
    split; [|split].
    + intros p [->|Hp]%elem_of_cons.
      * destruct (m !! d) as [e|] eqn:Hm; [|by rewrite lookup_insert_eq].
        destruct (decide (d ∈ dirs)) as [Hin|Hout].
        { by apply IH1. }
        pose proof Hm as Hfs. rewrite IH3 in Hfs by done.
        specialize (Hfree d (list_elem_of_here _ _)).
        rewrite Hfs in Hfree. by destruct e.
      * destruct (m !! d) eqn:Hm; [by apply IH1|].
        destruct (decide (d = p)) as [->|Hne];
          [by rewrite lookup_insert_eq|].
        rewrite lookup_insert_ne by done. by apply IH1.
    + intros p e Hp. destruct (m !! d) eqn:Hm; [by apply IH2|].
      destruct (decide (d = p)) as [->|Hne].
      * apply IH2 in Hp. congruence.
      * rewrite lookup_insert_ne by done. by apply IH2.
    + intros p [Hne Hp]%not_elem_of_cons.
      destruct (m !! d) eqn:Hm; [by apply IH3|].
      rewrite lookup_insert_ne by done. by apply IH3.
Qed.

End FsFacts.

(** * Facts about the stages of a run *)

Section StageFacts.

Variable JSON_parse : string → option json.
Variable child : string → list string → gmap (list string) entry → child_result.
Variable __filename : string.

Lemma fs_copy_world src dest w r w1 :
  fs_copy src dest w = (r, w1) → cwd w1 = cwd w ∧ trace w1 = trace w.
Proof.
  unfold fs_copy. intros Hrun.
  repeat case_match; simplify_eq/=; done.
Qed.

Lemma fs_copy_ok src dest w w1 :
  fs_copy src dest w = (Ok tt, w1) →
  ∃ s d fs1,
    locate (cwd w) src = Some s ∧ locate (cwd w) dest = Some d
    ∧ is_Some (files w !! s) ∧ copied (files w) s d fs1
    ∧ w1 = set_files fs1 w.
Proof.
  unfold fs_copy. intros Hrun.
  destruct (locate (cwd w) src) as [s|]; [|done].
  destruct (files w !! s) as [se|] eqn:Hs; [|done].
  destruct (locate (cwd w) dest) as [d|]; [|done].
  destruct (copy_item (files w) (d, se)); [|done].
  case_bool_decide; [done|].
  destruct (mkdirs (ancestors d) (files w)) as [fsm|] eqn:Hmk; [|done].
  destruct (copy_items (subtree s d (files w)) fsm) as [r fs1] eqn:Hitems.
  injection Hrun as -> <-.
  apply mkdirs_ok in Hmk as (Hm1 & Hm2 & Hm3).
  apply copy_items_ok in Hitems as [Hin Hout]; [|apply subtree_keys_NoDup].
  exists s, d, fs1. repeat split; try done.
  - intros rel e Hrel. apply Hin, elem_of_subtree. by exists rel.
  - intros p e Hp Hfree. rewrite Hout; [by apply Hm2|].
    intros (rel & -> & [e' He'])%subtree_keys.
    by rewrite (Hfree rel) in He'.
  - intros p Hp. rewrite Hout; [by apply Hm1|].
    intros (rel & -> & _)%subtree_keys.
    apply elem_of_ancestors in Hp as (r' & Hr' & Heq).
    rewrite <- app_assoc in Heq.
    apply (f_equal length) in Heq. rewrite !length_app in Heq.
    destruct r'; [done|]. simpl in Heq. lia.
Qed.

Lemma resolve_loop_absolute dir rargs acc :
  (Path.resolve_loop rargs (render dir) acc).2 = true.
Proof.
  revert acc. induction rargs as [|a rargs IH]; intros acc; simpl; [done|].
  destruct (String.eqb a ""); [done|]. by destruct (Path.isAbsolute a).
Qed.

Lemma resolve_absolute dir args :
  ∃ q, Path.resolve (render dir) args = String "/" q.
Proof.
  unfold Path.resolve.
  pose proof (resolve_loop_absolute dir (rev args) "") as Habs.
  destruct (Path.resolve_loop _ _ _) as [p isAbs]. simpl in Habs. subst.
  by eexists.
Qed.

Lemma template_located dir :
  locate dir (template __filename dir) = Some (template_place __filename dir).
Proof.
  unfold template_place, template.
  destruct (resolve_absolute dir [__dirname __filename; "../../template"])
    as [q ->].
  by rewrite locate_absolute.
Qed.

Lemma locate_nonempty dir p d : locate dir p = Some d → p ≠ "".
Proof. unfold locate. by intros H ->. Qed.

Lemma seg_ok_manifest : seg_ok "package.json".
Proof. by repeat split. Qed.

Lemma fs_readJson_inv file w r w1 :
  fs_readJson JSON_parse file w = (r, w1) →
  w1 = w
  ∧ ∀ v, r = Ok v →
      ∃ f content,
        locate (cwd w) file = Some f
        ∧ files w !! f = Some (File content)
        ∧ JSON_parse (strip_bom content) = Some v.
Proof.
  unfold fs_readJson. intros Hrun.
  repeat case_match; simplify_eq/=; (split; [done|]); intros; simplify_eq.
  eauto.
Qed.

Lemma fs_writeJson_inv file obj n w r w1 :
  fs_writeJson file obj n w = (r, w1) →
  (r = Ok tt
   ∧ ∃ f, locate (cwd w) file = Some f
          ∧ w1 = set_files
                   (<[f := File (Json.stringify obj n +:+ Json.newline)]>
                      (files w)) w)
  ∨ (∃ e, r = Throw e ∧ w1 = w).
Proof.
  unfold fs_writeJson. intros Hrun.
  repeat case_match; simplify_eq/=; eauto.
Qed.

Lemma process_chdir_inv directory w r w1 :
  process_chdir directory w = (r, w1) →
  (r = Ok tt
   ∧ ∃ d, locate (cwd w) directory = Some d
          ∧ files w !! d = Some Dir
          ∧ w1 = emit (Chdir d) (World (files w) d (trace w)))
  ∨ (∃ e, r = Throw e ∧ w1 = w
          ∧ ∀ d, locate (cwd w) directory = Some d → files w !! d ≠ Some Dir).
Proof.
  unfold process_chdir. intros Hrun.
  repeat case_match; simplify_eq/=; eauto 10;
    right; eexists; (split; [done|]); (split; [done|]); congruence.
Qed.

Lemma createApp_stage pn td w r w' :
  createApp JSON_parse child __filename pn td w = (r, w') →
  Stage JSON_parse child __filename pn td w r w'.
Proof.
  unfold createApp.
  cbv [mbind M_bind console_log path_resolve lift].
  change (cwd (emit _ w)) with (cwd w).
  fold (template __filename (cwd w)).
  destruct (fs_copy _ td _) as [[[]|e] w1] eqn:Hcopy.
  2: { intros [= <- <-]. apply fs_copy_world in Hcopy as [? ?].
       by apply Stage_copy. }
  apply fs_copy_ok in Hcopy as (s & d & fs1 & Hs & Hd & Hsome & Hcopied & ->).
  tidy_world.
  rewrite template_located in Hs. injection Hs as <-.
  pose proof (locate_nonempty _ _ _ Hd) as Htd.
  assert (locate (cwd w) (Path.join [td; "package.json"])
          = Some (d ++ ["package.json"])) as Hpkg.
  { rewrite locate_join, Hd by (done || apply seg_ok_manifest). done. }
  destruct (fs_readJson _ _ _) as [[v|e] w2] eqn:Hread;
    apply fs_readJson_inv in Hread as [-> Hread].
  2: { intros [= <- <-]. by eapply Stage_patch. }
  destruct (Hread v eq_refl) as (f & content & Hf & Hcontent & Hparse).
  tidy_world.
  rewrite Hpkg in Hf. injection Hf as <-. clear Hread.
  destruct (assign_name v (Path.basename td)) as [v'|e] eqn:Hassign.
  2: { intros [= <- <-]. by eapply Stage_patch. }
  destruct (fs_writeJson _ _ _ _) as [rw w3] eqn:Hwrite.
  apply fs_writeJson_inv in Hwrite as [(-> & f & Hf & ->)|(e & -> & ->)].
  2: { intros [= <- <-]. by eapply Stage_patch. }
  tidy_world.
  rewrite Hpkg in Hf. injection Hf as <-.
  assert (prepared JSON_parse __filename (files w) (cwd w) td d
            (<[d ++ ["package.json"]
               := File (Json.stringify v' 2 +:+ Json.newline)]> fs1))
    as Hprep by (by econstructor).
  destruct (process_chdir _ _) as [rc w4] eqn:Hchdir.
  apply process_chdir_inv in Hchdir
    as [(-> & d' & Hd' & Hdir & ->)|(e & -> & -> & Hnot)]; tidy_world.
  2: { intros [= <- <-]. eapply Stage_chdir; [done|]. by apply Hnot. }
  rewrite Hd in Hd'. injection Hd' as <-.
  unfold execAsync. tidy_world.
  set (res := child "npm install" d _).
  destruct (status res =? 0)%N eqn:Hst.
  - apply N.eqb_eq in Hst. intros [= <- <-]. rewrite Hst. tidy_world.
    eapply Stage_done with (r := res); [exact Hprep|done..].
  - apply N.eqb_neq in Hst. intros [= <- <-].
    eapply Stage_install with (r := res); [exact Hprep|done..].
Qed.

End StageFacts.

(** * Properties of a run *)

Section Runs.

Variable JSON_parse : string → option json.
Variable child : string → list string → gmap (list string) entry → child_result.
Variable __filename : string.

Local Abbreviation main := (main JSON_parse child __filename).
Local Abbreviation Stage := (Stage JSON_parse child __filename).
Local Abbreviation prepared := (prepared JSON_parse __filename).
Local Abbreviation template_place := (template_place __filename).

(** The action hands [createApp] the resolved path first and the raw
    argument second. *)
Lemma action_arguments name w :
  action JSON_parse child __filename name w
  = createApp JSON_parse child __filename (target (cwd w) name) name w.
Proof. reflexivity. Qed.

Lemma main_stage name w code w' :
  main name w = (code, w') →
  ∃ r, Stage (target (cwd w) name) name w r w'
       ∧ code = match r with Ok _ => 0%N | Throw _ => 1%N end.
Proof.
  unfold main. rewrite action_arguments.
  destruct (createApp _ _ _ _ _ w) as [r w1] eqn:Hrun.
  apply createApp_stage in Hrun.
  destruct r; intros [= <- <-]; eauto.
Qed.

(** A run that spawned the install got there through the copy, the patch
    and the switch of directory, and did nothing to the disk afterwards. *)
Lemma reached_install name fs dir code w' cmd d st :
  main name (start fs dir) = (code, w') →
  Exec cmd d st ∈ trace w' →
  ∃ fs2,
    prepared fs dir name d fs2
    ∧ fs2 !! d = Some Dir
    ∧ cmd = "npm install"
    ∧ st = status (child "npm install" d fs2)
    ∧ files w' = disk (child "npm install" d fs2)
    ∧ cwd w' = d
    ∧ (code = 0%N ↔ st = 0%N)
    ∧ trace w'
      = lines_before (target dir name) ++ lines_install d st
          ++ (if decide (st = 0%N) then lines_after (target dir name) else []).
Proof.
  intros (r & Hstage & ->)%main_stage Hexec.
  inversion Hstage as [e w1 Hcwd Htrace|e d' fs1 Hd Hcopied
                      |e d' fs2 Hprep Hdir|d' fs2 res Hprep Hdir Hres Hst
                      |d' fs2 res Hprep Hdir Hres Hst]; subst; simpl in *.
  - rewrite Htrace in Hexec. simpl in Hexec. no_event Hexec.
  - no_event Hexec.
  - no_event Hexec.
  - do 4 (apply elem_of_cons in Hexec as [Hexec|Hexec]; [discriminate Hexec|]).
    apply elem_of_cons in Hexec as [[= -> -> ->]|Hexec]; [|no_event Hexec].
    exists fs2. rewrite decide_False by done.
    repeat split; try done.
  - do 4 (apply elem_of_cons in Hexec as [Hexec|Hexec]; [discriminate Hexec|]).
    apply elem_of_cons in Hexec as [[= -> -> ->]|Hexec]; [|no_event Hexec].
    exists fs2. rewrite Hst.
    repeat split; try done.
Qed.

(** A successful run ends with the line that names the next commands, and
    the directory it names is the resolved path. *)
Lemma completion_line name fs dir w' :
  main name (start fs dir) = (0%N, w') →
  last (trace w')
  = Some (Log bold (Json.newline +:+ "cd " +:+ target dir name
                      +:+ " && npm run dev" +:+ Json.newline)).
Proof.
  intros (r & Hstage & Hcode)%main_stage.
  by inversion Hstage; subst.
Qed.

Lemma manifest_not_ancestor (d p : list string) :
  p ∈ ancestors d → p ≠ d ++ ["package.json"].
Proof.
  intros (r & Hr & ->)%elem_of_ancestors Heq.
  apply (f_equal length) in Heq. rewrite !length_app in Heq.
  simpl in Heq. lia.
Qed.

(** The disk on which the install starts holds the template below the
    target, with only the manifest rewritten, and what was there apart
    from it. *)
Lemma prepared_contents fs dir td d fs2 :
  prepared fs dir td d fs2 →
  (∀ p, p ∈ ancestors d → fs2 !! p = Some Dir)
  ∧ (∀ rel e, fs !! (template_place dir ++ rel) = Some e →
       ∃ e', fs2 !! (d ++ rel) = Some e'
             ∧ is_dir (Some e') = is_dir (Some e)
             ∧ (rel ≠ ["package.json"] → e' = e))
  ∧ (∀ p e, fs !! p = Some e →
       (∀ rel, p = d ++ rel → fs !! (template_place dir ++ rel) = None) →
       p ≠ d ++ ["package.json"] →
       fs2 !! p = Some e).
Proof.
  intros [d' fs1 content v v' Hd Hsome (Hin & Hout & Hanc) Hcontent Hparse Hassign].
  split; [|split].
  - intros p Hp. rewrite lookup_insert_ne; [by apply Hanc|].
    intros Heq. by apply (manifest_not_ancestor d' p).
  - intros rel e Hrel. apply Hin in Hrel.
    destruct (decide (rel = ["package.json"])) as [->|Hne].
    + rewrite lookup_insert_eq. eexists. split; [done|].
      rewrite Hcontent in Hrel. injection Hrel as <-. done.
    + rewrite lookup_insert_ne by (by intros ?%app_inv_head).
      by exists e.
  - intros p e Hp Hfree Hne. rewrite lookup_insert_ne by done.
    by apply Hout.
Qed.

Lemma prepared_locate fs dir td d fs2 :
  prepared fs dir td d fs2 → locate dir td = Some d.
Proof. by intros []. Qed.

(** A name without separators is found in the working directory. *)
Lemma locate_segment dir name :
  seg_ok name → locate dir name = Some (dir ++ [name]).
Proof.
  intros [Hkept Hsep].
  rewrite locate_relative.
  - rewrite Hsep. simpl. rewrite norm_step_kept by done.
    simpl. by rewrite rev_involutive.
  - by destruct Hkept.
  - apply sep_free_not_absolute; [by destruct Hkept|done].
Qed.

(** C4: for a project name that is one valid path segment, a successful
    run leaves a directory of that name in the directory of invocation;
    its parents are directories, and every entry of the template is below
    it at the same relative path, nested ones included, a file as a file
    and a directory as a directory, and unchanged apart from the manifest.
    The install is assumed to remove nothing. *)
Theorem C4_project_directory_holds_the_template name fs dir w' :
  seg_ok name →
  child_keeps child →
  main name (start fs dir) = (0%N, w') →
  files w' !! (dir ++ [name]) = Some Dir
  ∧ (∀ p, p ∈ ancestors (dir ++ [name]) → files w' !! p = Some Dir)
  ∧ (∀ rel e, fs !! (template_place dir ++ rel) = Some e →
       ∃ e', files w' !! (dir ++ [name] ++ rel) = Some e'
             ∧ is_dir (Some e') = is_dir (Some e)).
Proof.
  intros Hname Hkeeps Hrun.
  destruct (main_stage _ _ _ _ Hrun) as (r & Hstage & Hcode).
  inversion Hstage as [| | | |d fs2 res Hprep Hdir Hres Hst];
    subst; try discriminate Hcode.
  simpl in *.
  pose proof (prepared_locate _ _ _ _ _ Hprep) as Hd.
  rewrite locate_segment in Hd by done. injection Hd as <-.
  destruct (prepared_contents _ _ _ _ _ Hprep) as (Hanc & Htree & _).
  split; [|split].
  - destruct (Hkeeps "npm install" (dir ++ [name]) _ _ _ Hdir)
      as (e' & -> & Hkind). by destruct e'.
  - intros p Hp.
    destruct (Hkeeps "npm install" (dir ++ [name]) _ _ _ (Hanc p Hp))
      as (e' & -> & Hkind). by destruct e'.
  - intros rel e Hrel.
    destruct (Htree rel e Hrel) as (e1 & He1 & Hkind1 & _).
    destruct (Hkeeps "npm install" (dir ++ [name]) _ _ _ He1)
      as (e' & He' & Hkind).
    exists e'. rewrite <- app_assoc in He'. split; [done|].
    by destruct e', e1, e.
Qed.

Lemma get_set_eq k v fields : Json.get k (Json.set k v fields) = Some v.
Proof.
  induction fields as [|[k' v'] fields IH]; simpl.
  - by rewrite String.eqb_refl.
  - destruct (String.eqb k' k) eqn:E; simpl.
    + by rewrite String.eqb_refl.
    + by rewrite E.
Qed.

Lemma get_set_ne k k' v fields :
  k' ≠ k → Json.get k' (Json.set k v fields) = Json.get k' fields.
Proof.
  intros Hne. induction fields as [|[k0 v0] fields IH]; simpl.
  - apply String.eqb_neq in Hne. rewrite String.eqb_sym. by rewrite Hne.
  - destruct (String.eqb k0 k) eqn:E; simpl.
    + apply String.eqb_eq in E; subst k0.
      assert (String.eqb k k' = false) as ->; [|done].
      apply String.eqb_neq. congruence.
    + by rewrite IH.
Qed.

(** With a gap of two spaces an object is printed one property per line,
    each line of its own properties indented by two spaces. *)
Lemma stringify_object_layout fields :
  fields ≠ [] →
  Json.stringify (JObj fields) 2
  = "{" +:+ Json.newline +:+ "  "
      +:+ String.concat ("," +:+ Json.newline +:+ "  ")
            (List.map (λ kv, Json.quote kv.1 +:+ ": "
                               +:+ Json.serialize "  " "  " kv.2) fields)
      +:+ Json.newline +:+ "}".
Proof. by destruct fields. Qed.

Lemma set_nonempty k v fields : Json.set k v fields ≠ [].
Proof. destruct fields as [|[k' v'] r]; simpl; [done|]. by destruct (String.eqb k' k). Qed.

(** C5: when the template's manifest is an object, the manifest on the
    disk handed to the install is that object after the assignment of the
    name, printed by [JSON.stringify] with two spaces (one property per
    line, indented by two spaces) and a final newline: every other
    property reads as in the template; and every other entry of the
    template is below the target as it is in the template. *)
Theorem C5_patch_changes_only_the_name
    name fs dir code w' cmd d st content fields :
  main name (start fs dir) = (code, w') →
  Exec cmd d st ∈ trace w' →
  fs !! (template_place dir ++ ["package.json"]) = Some (File content) →
  JSON_parse (strip_bom content) = Some (JObj fields) →
  ∃ fs2 fields',
    files w' = disk (child cmd d fs2)
    ∧ fs2 !! (d ++ ["package.json"])
      = Some (File (Json.stringify (JObj fields') 2 +:+ Json.newline))
    ∧ Json.stringify (JObj fields') 2
      = "{" +:+ Json.newline +:+ "  "
          +:+ String.concat ("," +:+ Json.newline +:+ "  ")
                (List.map (λ kv, Json.quote kv.1 +:+ ": "
                                   +:+ Json.serialize "  " "  " kv.2) fields')
          +:+ Json.newline +:+ "}"
    ∧ fields' = Json.set "name" (JStr (Path.basename name)) fields
    ∧ (∀ k, k ≠ "name" → Json.get k fields' = Json.get k fields)
    ∧ Json.get "name" fields' = Some (JStr (Path.basename name))
    ∧ (∀ rel e, rel ≠ ["package.json"] →
         fs !! (template_place dir ++ rel) = Some e →
         fs2 !! (d ++ rel) = Some e).
Proof.
  intros Hrun Hexec Hmanifest Hparse.
  destruct (reached_install _ _ _ _ _ _ _ _ Hrun Hexec)
    as (fs2 & Hprep & Hdir & -> & -> & Hfiles & _).
  pose proof (prepared_contents _ _ _ _ _ Hprep) as (_ & Htree & _).
  destruct Hprep as [d fs1 content' v v' Hd Hsome (Hin & _ & _) Hcontent Hparse' Hassign].
  apply Hin in Hmanifest. rewrite Hcontent in Hmanifest.
  injection Hmanifest as ->. rewrite Hparse in Hparse'.
  injection Hparse' as <-. simpl in Hassign. injection Hassign as <-.
  eexists _, _. split; [exact Hfiles|].
  split; [by rewrite lookup_insert_eq|].
  split; [apply stringify_object_layout, set_nonempty|]. split; [done|].
  split; [by intros; apply get_set_ne|]. split; [apply get_set_eq|].
  intros rel e Hne Hrel.
  destruct (Htree rel e Hrel) as (e' & He' & _ & Hsame).
  rewrite He'. f_equal. by apply Hsame.
Qed.

(** C6: when the install exits with a status other than zero, the process
    exits with a code other than zero, and the disk is the one the install
    left: it was started on the copied template with the rewritten
    manifest, and nothing is undone afterwards.  If the install removes
    nothing, every entry of the template and the manifest are still below
    the target. *)
Theorem C6_failed_install_leaves_the_project
    name fs dir code w' cmd d st :
  child_keeps child →
  main name (start fs dir) = (code, w') →
  Exec cmd d st ∈ trace w' →
  st ≠ 0%N →
  code ≠ 0%N
  ∧ (∃ fs2 text,
       files w' = disk (child cmd d fs2)
       ∧ fs2 !! (d ++ ["package.json"]) = Some (File text)
       ∧ (∀ rel e, rel ≠ ["package.json"] →
            fs !! (template_place dir ++ rel) = Some e →
            fs2 !! (d ++ rel) = Some e))
  ∧ (∃ e, files w' !! (d ++ ["package.json"]) = Some e
          ∧ is_dir (Some e) = false)
  ∧ (∀ rel e, fs !! (template_place dir ++ rel) = Some e →
       ∃ e', files w' !! (d ++ rel) = Some e'
             ∧ is_dir (Some e') = is_dir (Some e)).
Proof.
  intros Hkeeps Hrun Hexec Hst.
  destruct (reached_install _ _ _ _ _ _ _ _ Hrun Hexec)
    as (fs2 & Hprep & Hdir & -> & -> & Hfiles & _ & Hcode & _).
  pose proof (prepared_contents _ _ _ _ _ Hprep) as (_ & Htree & _).
  assert (∃ text, fs2 !! (d ++ ["package.json"]) = Some (File text))
    as [text Htext].
  { destruct Hprep. eexists. apply lookup_insert_eq. }
  split; [by intros ?%Hcode|]. split; [|split].
  - exists fs2, text. split; [done|]. split; [done|].
    intros rel e Hne Hrel.
    destruct (Htree rel e Hrel) as (e' & He' & _ & Hsame).
    rewrite He'. f_equal. by apply Hsame.
  - destruct (Hkeeps "npm install" d _ _ _ Htext) as (e' & He' & Hkind).
    exists e'. by rewrite Hfiles.
  - intros rel e Hrel.
    destruct (Htree rel e Hrel) as (e1 & He1 & Hkind1 & _).
    destruct (Hkeeps "npm install" d _ _ _ He1) as (e' & He' & Hkind).
    exists e'. rewrite Hfiles. split; [done|]. by destruct e', e1, e.
Qed.

(** C7: when nothing is at the place of the bundled template, the process
    exits with code 1 and the disk is as it was: nothing was created, at
    the target or elsewhere. *)
Theorem C7_missing_template_creates_nothing name w :
  files w !! template_place (cwd w) = None →
  ∃ w', main name w = (1%N, w')
        ∧ files w' = files w
        ∧ cwd w' = cwd w.
Proof.
  intros Hnone. unfold main. rewrite action_arguments.
  unfold createApp. cbv [mbind M_bind console_log path_resolve].
  change (cwd (emit _ w)) with (cwd w).
  fold (template __filename (cwd w)).
  unfold fs_copy. cbn [cwd files emit].
  rewrite template_located, Hnone. by eexists.
Qed.

(** C8: the install is spawned after the one switch of the working
    directory and no switch follows it; the directory switched to, which
    is the working directory of the install, is the place of the argument
    in the directory of invocation, and its path is the resolved target
    directory. *)
Theorem C8_install_runs_in_the_target
    name fs dir code w' pre cmd d st post :
  Forall seg_ok dir →
  main name (start fs dir) = (code, w') →
  trace w' = pre ++ Exec cmd d st :: post →
  locate dir name = Some d
  ∧ render d = target dir name
  ∧ Chdir d ∈ pre
  ∧ (∀ d', Chdir d' ∈ pre → d' = d)
  ∧ (∀ d', Chdir d' ∉ post)
  ∧ cwd w' = d.
Proof.
  intros Hdir Hrun Htrace.
  assert (Exec cmd d st ∈ trace w') as Hexec.
  { rewrite Htrace. apply elem_of_app. right. by left. }
  destruct (reached_install _ _ _ _ _ _ _ _ Hrun Hexec)
    as (fs2 & Hprep & _ & -> & Hst & _ & Hcwd & _ & Hshape).
  pose proof (prepared_locate _ _ _ _ _ Hprep) as Hd.
  split; [done|]. split; [symmetry; by apply resolve_locate|].
  rewrite Htrace in Hshape. clear Htrace Hexec Hrun.
  unfold lines_before, lines_install, lines_after in Hshape.
  assert (pre = [Log cyan (Json.newline +:+ "Creating project: "
                             +:+ target dir name);
                 Log green "✔ Template copied"; Chdir d;
                 Log yellow "Installing dependencies..."]
          ∧ ∀ d', Chdir d' ∉ post) as [-> Hpost].
  { case_decide; simpl in Hshape;
      repeat (destruct pre as [|? pre]; simplify_eq/=);
      (split; [done|]); intros d' Hin; no_event Hin. }
  split; [set_solver|]. split; [|done].
  intros d' Hin.
  repeat (apply elem_of_cons in Hin as [Hin|Hin]; [by simplify_eq|]).
  by apply elem_of_nil in Hin.
Qed.

(** C9: whatever the argument, the disk, the directory, the parser and the
    behaviour of the child, every command the process runs is the text
    [npm install]. *)
Theorem C9_install_command_is_constant name fs dir code w' cmd d st :
  main name (start fs dir) = (code, w') →
  Exec cmd d st ∈ trace w' →
  cmd = "npm install".
Proof.
  intros Hrun Hexec.
  by destruct (reached_install _ _ _ _ _ _ _ _ Hrun Hexec)
    as (fs2 & _ & _ & -> & _).
Qed.

(** C10: in a run that gets to the install, the copy put every entry of
    the template below the target, replacing what was at the same relative
    path, and left in place every entry that no entry of the template
    replaced; the manifest the patch parsed is the text of the template's
    manifest, whatever manifest the target had before. *)
Theorem C10_copy_merges_and_overwrites
    name fs dir code w' cmd d st content :
  main name (start fs dir) = (code, w') →
  Exec cmd d st ∈ trace w' →
  fs !! (template_place dir ++ ["package.json"]) = Some (File content) →
  ∃ fs1 v v',
    (∀ rel e, fs !! (template_place dir ++ rel) = Some e →
              fs1 !! (d ++ rel) = Some e)
    ∧ (∀ p e, fs !! p = Some e →
              (∀ rel, p = d ++ rel →
                      fs !! (template_place dir ++ rel) = None) →
              fs1 !! p = Some e)
    ∧ fs1 !! (d ++ ["package.json"]) = Some (File content)
    ∧ JSON_parse (strip_bom content) = Some v
    ∧ assign_name v (Path.basename name) = Ok v'
    ∧ files w'
      = disk (child cmd d
                (<[d ++ ["package.json"]
                   := File (Json.stringify v' 2 +:+ Json.newline)]> fs1)).
Proof.
  intros Hrun Hexec Hmanifest.
  destruct (reached_install _ _ _ _ _ _ _ _ Hrun Hexec)
    as (fs2 & Hprep & Hdir & -> & -> & Hfiles & _).
  destruct Hprep as [d fs1 content' v v' Hd Hsome (Hin & Hout & Hanc) Hcontent Hparse Hassign].
  pose proof (Hin _ _ Hmanifest) as Hsame. rewrite Hcontent in Hsame.
  injection Hsame as ->.
  by exists fs1, v, v'.
Qed.

End Runs.

(** * The scenario, evaluated *)

Section DemoFacts.

Lemma touch_keeps (p : list string) (x : entry)
    (fs : gmap (list string) entry) (q : list string) (e : entry) :
  fs !! q = Some e → Demo.touch p x fs !! q = Some e.
Proof.
  intros Hq. unfold Demo.touch.
  destruct (fs !! p) eqn:Hp; [done|].
  rewrite lookup_insert_ne; [done|]. congruence.
Qed.

Lemma npm_ok_keeps : child_keeps Demo.npm_ok.
Proof.
  intros command dir fs p e Hp. exists e. split; [|done].
  simpl. by do 2 apply touch_keeps.
Qed.

Lemma npm_fail_keeps : child_keeps Demo.npm_fail.
Proof. intros command dir fs p e Hp. by exists e. Qed.

Lemma home_ok : Forall seg_ok Demo.home.
Proof. repeat constructor; done. Qed.

End DemoFacts.

(** C1: with the argument [demo] in [/work], the action calls [createApp]
    with the resolved path [/work/demo] as its first argument and the raw
    argument as its second; the first line [createApp] prints shows the
    project name it received, and the call differs from the call with the
    arguments in the order of the signature. *)
Theorem C1_action_passes_the_path_as_project_name :
  action Reader.parse Demo.npm_ok Demo.module_file "demo"
    (start Demo.disk0 Demo.home)
  = createApp Reader.parse Demo.npm_ok Demo.module_file "/work/demo" "demo"
      (start Demo.disk0 Demo.home)
  ∧ head (trace (Demo.run "demo").2)
    = Some (Log cyan (Json.newline +:+ "Creating project: /work/demo"))
  ∧ createApp Reader.parse Demo.npm_ok Demo.module_file "/work/demo" "demo"
      (start Demo.disk0 Demo.home)
    ≠ createApp Reader.parse Demo.npm_ok Demo.module_file "demo" "/work/demo"
        (start Demo.disk0 Demo.home).
Proof.
  split; [reflexivity|]. split; [by vm_compute|].
  intros Heq. apply (f_equal (λ r, head (trace r.2))) in Heq.
  vm_compute in Heq. discriminate Heq.
Qed.

(** C2: with the argument [.] in [/work] the run succeeds and the manifest
    it leaves in [/work] is named [.], the base name of the raw argument,
    while the base name of the resolved target directory is [work]; the
    manifest is the same when the install fails.  With the argument
    [sub/app] the manifest is named [app]. *)
Theorem C2_manifest_is_named_after_the_raw_argument :
  (Demo.run ".").1 = 0%N
  ∧ locate Demo.home "." = Some ["work"]
  ∧ Demo.written_name (files (Demo.run ".").2) ["work"] = Some (JStr ".")
  ∧ Demo.written_name (files (Demo.run_failing ".").2) ["work"] = Some (JStr ".")
  ∧ Path.basename (target Demo.home ".") = "work"
  ∧ Demo.written_name (files (Demo.run "sub/app").2) ["work"; "sub"; "app"]
    = Some (JStr "app").
Proof. repeat split; by vm_compute. Qed.

(** C3: with the argument [demo] in [/work] the run succeeds and its last
    line names the resolved path, not the argument. *)
Theorem C3_completion_line_names_the_resolved_path :
  (Demo.run "demo").1 = 0%N
  ∧ last (trace (Demo.run "demo").2)
    = Some (Log bold (Json.newline +:+ "cd /work/demo && npm run dev"
                        +:+ Json.newline))
  ∧ last (trace (Demo.run "demo").2)
    ≠ Some (Log bold (Json.newline +:+ "cd demo && npm run dev"
                        +:+ Json.newline)).
Proof. repeat split; by vm_compute. Qed.

(** The scenario of the README meets the premises on the project directory:
    the name is one segment, the install removes nothing, the run succeeds. *)
Lemma C4_witness :
  files (Demo.run "demo").2 !! (Demo.home ++ ["demo"]) = Some Dir
  ∧ (∀ p, p ∈ ancestors (Demo.home ++ ["demo"]) →
          files (Demo.run "demo").2 !! p = Some Dir)
  ∧ (∀ rel e,
       Demo.disk0 !! (template_place Demo.module_file Demo.home ++ rel) = Some e →
       ∃ e', files (Demo.run "demo").2 !! (Demo.home ++ ["demo"] ++ rel) = Some e'
             ∧ is_dir (Some e') = is_dir (Some e)).
Proof.
  apply (C4_project_directory_holds_the_template
           Reader.parse Demo.npm_ok Demo.module_file "demo"
           Demo.disk0 Demo.home (Demo.run "demo").2).
  - by repeat split.
  - apply npm_ok_keeps.
  - run_is_pair (Demo.run "demo").
Defined.

(** In the scenario the manifest of the template is an object, and the run
    gets to the install. *)
Lemma C5_witness :
  ∃ fs2 fields',
    files (Demo.run "demo").2
    = disk (Demo.npm_ok "npm install" ["work"; "demo"] fs2)
    ∧ fs2 !! (["work"; "demo"] ++ ["package.json"])
      = Some (File (Json.stringify (JObj fields') 2 +:+ Json.newline))
    ∧ Json.stringify (JObj fields') 2
      = "{" +:+ Json.newline +:+ "  "
          +:+ String.concat ("," +:+ Json.newline +:+ "  ")
                (List.map (λ kv, Json.quote kv.1 +:+ ": "
                                   +:+ Json.serialize "  " "  " kv.2) fields')
          +:+ Json.newline +:+ "}"
    ∧ fields' = Json.set "name" (JStr (Path.basename "demo")) Demo.manifest_fields
    ∧ (∀ k, k ≠ "name" → Json.get k fields' = Json.get k Demo.manifest_fields)
    ∧ Json.get "name" fields' = Some (JStr (Path.basename "demo"))
    ∧ (∀ rel e, rel ≠ ["package.json"] →
         Demo.disk0 !! (template_place Demo.module_file Demo.home ++ rel) = Some e →
         fs2 !! (["work"; "demo"] ++ rel) = Some e).
Proof.
  apply (C5_patch_changes_only_the_name
           Reader.parse Demo.npm_ok Demo.module_file "demo"
           Demo.disk0 Demo.home (Demo.run "demo").1 (Demo.run "demo").2
           "npm install" ["work"; "demo"] 0%N Demo.manifest_text
           Demo.manifest_fields).
  - run_is_pair (Demo.run "demo").
  - vm_compute. repeat constructor.
  - vm_compute. reflexivity.
  - vm_compute. reflexivity.
Defined.

(** The scenario with the install that fails with status 1. *)
Lemma C6_witness :
  (Demo.run_failing "demo").1 ≠ 0%N
  ∧ (∃ fs2 text,
       files (Demo.run_failing "demo").2
       = disk (Demo.npm_fail "npm install" ["work"; "demo"] fs2)
       ∧ fs2 !! (["work"; "demo"] ++ ["package.json"]) = Some (File text)
       ∧ (∀ rel e, rel ≠ ["package.json"] →
            Demo.disk0 !! (template_place Demo.module_file Demo.home ++ rel) = Some e →
            fs2 !! (["work"; "demo"] ++ rel) = Some e))
  ∧ (∃ e, files (Demo.run_failing "demo").2 !! (["work"; "demo"] ++ ["package.json"])
          = Some e
          ∧ is_dir (Some e) = false)
  ∧ (∀ rel e,
       Demo.disk0 !! (template_place Demo.module_file Demo.home ++ rel) = Some e →
       ∃ e', files (Demo.run_failing "demo").2 !! (["work"; "demo"] ++ rel) = Some e'
             ∧ is_dir (Some e') = is_dir (Some e)).
Proof.
  apply (C6_failed_install_leaves_the_project
           Reader.parse Demo.npm_fail Demo.module_file "demo"
           Demo.disk0 Demo.home (Demo.run_failing "demo").1
           (Demo.run_failing "demo").2 "npm install" ["work"; "demo"] 1%N).
  - apply npm_fail_keeps.
  - run_is_pair (Demo.run_failing "demo").
  - vm_compute. repeat constructor.
  - done.
Defined.

(** The scenario with a tool whose template was not shipped. *)
Lemma C7_witness :
  ∃ w', main Reader.parse Demo.npm_ok Demo.stray_module_file "demo"
          (start Demo.disk0 Demo.home) = (1%N, w')
        ∧ files w' = Demo.disk0
        ∧ cwd w' = Demo.home.
Proof.
  apply (C7_missing_template_creates_nothing
           Reader.parse Demo.npm_ok Demo.stray_module_file "demo"
           (start Demo.disk0 Demo.home)).
  vm_compute. reflexivity.
Defined.

(** In the scenario the install is the fifth event, after the switch to
    [/work/demo]. *)
Lemma C8_witness :
  locate Demo.home "demo" = Some ["work"; "demo"]
  ∧ render ["work"; "demo"] = target Demo.home "demo"
  ∧ Chdir ["work"; "demo"]
      ∈ lines_before (target Demo.home "demo")
          ++ [Chdir ["work"; "demo"]; Log yellow "Installing dependencies..."]
  ∧ (∀ d', Chdir d'
             ∈ lines_before (target Demo.home "demo")
                 ++ [Chdir ["work"; "demo"]; Log yellow "Installing dependencies..."] →
           d' = ["work"; "demo"])
  ∧ (∀ d', Chdir d' ∉ lines_after (target Demo.home "demo"))
  ∧ cwd (Demo.run "demo").2 = ["work"; "demo"].
Proof.
  apply (C8_install_runs_in_the_target
           Reader.parse Demo.npm_ok Demo.module_file "demo"
           Demo.disk0 Demo.home (Demo.run "demo").1 (Demo.run "demo").2
           (lines_before (target Demo.home "demo")
              ++ [Chdir ["work"; "demo"]; Log yellow "Installing dependencies..."])
           "npm install" ["work"; "demo"] 0%N
           (lines_after (target Demo.home "demo"))).
  - apply home_ok.
  - run_is_pair (Demo.run "demo").
  - vm_compute. reflexivity.
Defined.

(** The scenario with an argument that has a separator. *)
Lemma C9_witness :
  Exec "npm install" ["work"; "sub"; "app"] 0 ∈ trace (Demo.run "sub/app").2
  ∧ "npm install" = "npm install".
Proof.
  assert (Exec "npm install" ["work"; "sub"; "app"] 0
            ∈ trace (Demo.run "sub/app").2) as Hexec.
  { vm_compute. repeat constructor. }
  split; [exact Hexec|].
  apply (C9_install_command_is_constant
           Reader.parse Demo.npm_ok Demo.module_file "sub/app"
           Demo.disk0 Demo.home (Demo.run "sub/app").1 (Demo.run "sub/app").2
           "npm install" ["work"; "sub"; "app"] 0%N).
  - run_is_pair (Demo.run "sub/app").
  - exact Hexec.
Defined.

(** The scenario on a disk where the project directory has a manifest of its
    own, which does not parse, and a file the template does not have. *)
Lemma C10_witness :
  Demo.disk1 !! ["work"; "demo"; "package.json"] = Some (File "{ broken")
  ∧ ∃ fs1 v v',
      (∀ rel e,
         Demo.disk1 !! (template_place Demo.module_file Demo.home ++ rel) = Some e →
         fs1 !! (["work"; "demo"] ++ rel) = Some e)
      ∧ (∀ p e, Demo.disk1 !! p = Some e →
                (∀ rel, p = ["work"; "demo"] ++ rel →
                        Demo.disk1 !! (template_place Demo.module_file Demo.home ++ rel)
                        = None) →
                fs1 !! p = Some e)
      ∧ fs1 !! (["work"; "demo"] ++ ["package.json"]) = Some (File Demo.manifest_text)
      ∧ Reader.parse (strip_bom Demo.manifest_text) = Some v
      ∧ assign_name v (Path.basename "demo") = Ok v'
      ∧ files (Demo.run_again "demo").2
        = disk (Demo.npm_ok "npm install" ["work"; "demo"]
                  (<[["work"; "demo"] ++ ["package.json"]
                     := File (Json.stringify v' 2 +:+ Json.newline)]> fs1)).
Proof.
  split; [vm_compute; reflexivity|].
  apply (C10_copy_merges_and_overwrites
           Reader.parse Demo.npm_ok Demo.module_file "demo"
           Demo.disk1 Demo.home (Demo.run_again "demo").1
           (Demo.run_again "demo").2 "npm install" ["work"; "demo"] 0%N
           Demo.manifest_text).
  - run_is_pair (Demo.run_again "demo").
  - vm_compute. repeat constructor.
  - vm_compute. reflexivity.
Defined.

(** * Further properties of a run *)

Section MoreFsFacts.

(** A finished copy changes nothing but the entries below the destination
    that the tree replaces and the missing parents of the destination. *)
Lemma fs_copy_frame src dest w w1 s d p :
  fs_copy src dest w = (Ok tt, w1) →
  locate (cwd w) src = Some s →
  locate (cwd w) dest = Some d →
  (∀ rel, p = d ++ rel → files w !! (s ++ rel) = None) →
  p ∉ ancestors d →
  files w1 !! p = files w !! p.
Proof.
  unfold fs_copy. intros Hrun Hs Hd Hfree Hanc.
  rewrite Hs, Hd in Hrun.
  destruct (files w !! s) as [se|] eqn:Hse; [|done].
  destruct (copy_item (files w) (d, se)); [|done].
  case_bool_decide; [done|].
  destruct (mkdirs (ancestors d) (files w)) as [fsm|] eqn:Hmk; [|done].
  destruct (copy_items (subtree s d (files w)) fsm) as [r fs1] eqn:Hitems.
  injection Hrun as -> <-. simpl.
  apply mkdirs_ok in Hmk as (_ & _ & Hm).
  apply copy_items_ok in Hitems as [_ Hout]; [|apply subtree_keys_NoDup].
  rewrite Hout, Hm; [done..|].
  intros (rel & -> & [e He])%subtree_keys.
  by rewrite (Hfree rel) in He.
Qed.

End MoreFsFacts.

Section MoreRuns.

Variable JSON_parse : string → option json.
Variable child : string → list string → gmap (list string) entry → child_result.
Variable __filename : string.

Local Abbreviation main := (main JSON_parse child __filename).
Local Abbreviation Stage := (Stage JSON_parse child __filename).
Local Abbreviation prepared := (prepared JSON_parse __filename).
Local Abbreviation template := (template __filename).
Local Abbreviation template_place := (template_place __filename).

(** The copy as [createApp] starts it. *)
Local Abbreviation first_copy name fs dir :=
  (fs_copy (template dir) name
     (emit (line_creating (target dir name)) (start fs dir))).

(** A run in which the copy throws ends there, with exit code 1. *)
Lemma main_copy_throws name fs dir e w1 :
  first_copy name fs dir = (Throw e, w1) →
  main name (start fs dir) = (1%N, w1).
Proof.
  intros Hcopy. unfold main. rewrite action_arguments.
  unfold createApp. cbv [mbind M_bind console_log path_resolve].
  change (cwd (emit _ (start fs dir))) with dir.
  fold (template dir). unfold line_creating in Hcopy. simpl cwd.
  by rewrite Hcopy.
Qed.

(** A run in which the copy returns and no manifest is at the target ends
    there, with exit code 1. *)
Lemma main_manifest_missing name fs dir w1 d :
  first_copy name fs dir = (Ok tt, w1) →
  locate dir name = Some d →
  files w1 !! (d ++ ["package.json"]) = None →
  main name (start fs dir)
  = (1%N, World (files w1) dir (lines_before (target dir name))).
Proof.
  intros Hcopy Hd Hnone.
  pose proof (fs_copy_world _ _ _ _ _ Hcopy) as [Hcwd Htrace].
  unfold main. rewrite action_arguments.
  unfold createApp. cbv [mbind M_bind console_log path_resolve].
  change (cwd (emit _ (start fs dir))) with dir.
  fold (template dir). unfold line_creating in Hcopy. simpl cwd.
  rewrite Hcopy. unfold fs_readJson. tidy_world. simpl in Hcwd, Htrace.
  rewrite Hcwd, locate_join, Hd by
    (done || apply seg_ok_manifest || by eapply locate_nonempty).
  simpl. rewrite Hnone, Htrace. done.
Qed.


(** X1: the output of a run is one of four lists of events, which tell how
    far the run got, and the exit code and the final working directory go
    with it: the working directory has changed exactly when the install was
    spawned, and the exit code is 0 exactly when the three closing lines
    were printed. *)
Theorem X1_output_tells_the_stage name fs dir code w' :
  main name (start fs dir) = (code, w') →
  (code = 1%N ∧ cwd w' = dir
   ∧ trace w' = [line_creating (target dir name)])
  ∨ (code = 1%N ∧ cwd w' = dir
     ∧ trace w' = lines_before (target dir name))
  ∨ (∃ d st, code = 1%N ∧ st ≠ 0%N
             ∧ locate dir name = Some d ∧ cwd w' = d
             ∧ trace w' = lines_before (target dir name) ++ lines_install d st)
  ∨ (∃ d, code = 0%N
          ∧ locate dir name = Some d ∧ cwd w' = d
          ∧ trace w' = lines_before (target dir name) ++ lines_install d 0
                         ++ lines_after (target dir name)).
Proof.
  intros (r & Hstage & ->)%main_stage.
  inversion Hstage as [e w1 Hcwd Htrace|e d fs1 Hd Hcopied
                      |e d fs2 Hprep Hdir|d fs2 res Hprep Hdir Hres Hst
                      |d fs2 res Hprep Hdir Hres Hst]; subst; simpl in *.
  - left. by rewrite Htrace.
  - right; left. done.
  - right; left. done.
  - right; right; left. exists d, (status (child "npm install" d fs2)).
    repeat split; try done. by eapply prepared_locate.
  - right; right; right. exists d.
    repeat split; try done. by eapply prepared_locate.
Qed.

(** X2: for every argument, a successful run leaves a directory where the
    argument resolves from the directory of invocation, all the parents of
    that place are directories, and every entry of the template is below it
    at the same relative path, a file as a file and a directory as a
    directory.  The install is assumed to remove nothing. *)
Theorem X2_target_and_its_parents_exist name fs dir w' :
  child_keeps child →
  main name (start fs dir) = (0%N, w') →
  ∃ d, locate dir name = Some d
       ∧ files w' !! d = Some Dir
       ∧ (∀ p, p ∈ ancestors d → files w' !! p = Some Dir)
       ∧ (∀ rel e, fs !! (template_place dir ++ rel) = Some e →
            ∃ e', files w' !! (d ++ rel) = Some e'
                  ∧ is_dir (Some e') = is_dir (Some e)).
Proof.
  intros Hkeeps Hrun.
  destruct (main_stage _ _ _ _ _ _ _ Hrun) as (r & Hstage & Hcode).
  inversion Hstage as [| | | |d fs2 res Hprep Hdir Hres Hst];
    subst; try discriminate Hcode.
  simpl in *. exists d.
  destruct (prepared_contents _ _ _ _ _ _ _ Hprep) as (Hanc & Htree & _).
  split; [by eapply prepared_locate|]. split; [|split].
  - destruct (Hkeeps "npm install" d _ _ _ Hdir) as (e' & -> & Hkind).
    by destruct e'.
  - intros p Hp.
    destruct (Hkeeps "npm install" d _ _ _ (Hanc p Hp)) as (e' & -> & Hkind).
    by destruct e'.
  - intros rel e Hrel.
    destruct (Htree rel e Hrel) as (e1 & He1 & Hkind1 & _).
    destruct (Hkeeps "npm install" d _ _ _ He1) as (e' & He' & Hkind).
    exists e'. split; [done|]. by destruct e', e1, e.
Qed.

(** X3: when the last segment of the argument is a name (not empty, not a
    dot segment) and the working directory is a clean absolute path, the
    name written to the manifest is the base name of the resolved target
    directory, and it is the last segment of the place where the project
    is. *)
Theorem X3_name_is_the_base_name_of_the_target
    name fs dir code w' cmd d st content fields :
  Forall seg_ok dir →
  kept (Path.basename name) →
  main name (start fs dir) = (code, w') →
  Exec cmd d st ∈ trace w' →
  fs !! (template_place dir ++ ["package.json"]) = Some (File content) →
  JSON_parse (strip_bom content) = Some (JObj fields) →
  ∃ fs2 fields',
    files w' = disk (child cmd d fs2)
    ∧ fs2 !! (d ++ ["package.json"])
      = Some (File (Json.stringify (JObj fields') 2 +:+ Json.newline))
    ∧ Json.get "name" fields'
      = Some (JStr (Path.basename (target dir name)))
    ∧ last d = Some (Path.basename (target dir name)).
Proof.
  intros Hdir Hkept Hrun Hexec Hmanifest Hparse.
  destruct (reached_install _ _ _ _ _ _ _ _ _ _ _ Hrun Hexec)
    as (fs2 & Hprep & _ & -> & -> & Hfiles & _).
  pose proof (prepared_locate _ _ _ _ _ _ _ Hprep) as Hd.
  unfold target. rewrite basename_target by done.
  destruct Hprep as [d fs1 content' v v' _ _ (Hin & _ & _) Hcontent Hparse' Hassign].
  apply Hin in Hmanifest. rewrite Hcontent in Hmanifest.
  injection Hmanifest as ->. rewrite Hparse in Hparse'.
  injection Hparse' as <-. simpl in Hassign. injection Hassign as <-.
  eexists _, _. split; [exact Hfiles|].
  split; [by rewrite lookup_insert_eq|]. split; [apply get_set_eq|].
  by eapply basename_locate.
Qed.

(** X4: when the working directory is a clean absolute path, the first and
    the last line of a successful run name, by its absolute path, the
    directory in which the install ran, which is where the argument
    resolves. *)
Theorem X4_lines_name_the_install_directory name fs dir w' :
  Forall seg_ok dir →
  main name (start fs dir) = (0%N, w') →
  locate dir name = Some (cwd w')
  ∧ head (trace w') = Some (line_creating (render (cwd w')))
  ∧ last (trace w')
    = Some (Log bold (Json.newline +:+ "cd " +:+ render (cwd w')
                        +:+ " && npm run dev" +:+ Json.newline)).
Proof.
  intros Hdir Hrun.
  destruct (main_stage _ _ _ _ _ _ _ Hrun) as (r & Hstage & Hcode).
  inversion Hstage as [| | | |d fs2 res Hprep _ _ _];
    subst; try discriminate Hcode.
  simpl in *.
  pose proof (prepared_locate _ _ _ _ _ _ _ Hprep) as Hd.
  unfold target. by rewrite (resolve_locate _ _ _ Hdir Hd).
Qed.

(** X5: when the manifest of the template does not parse, or parses to
    [null] or to a primitive, no run spawns the install: the process exits
    with code 1 in the directory where it started, and if the line about
    the copy was printed, the template is below the target as it was
    copied, the manifest included. *)
Theorem X5_unusable_manifest_stops_the_run name fs dir code w' content :
  main name (start fs dir) = (code, w') →
  fs !! (template_place dir ++ ["package.json"]) = Some (File content) →
  (∀ v, JSON_parse (strip_bom content) = Some v → is_container v = false) →
  code = 1%N
  ∧ cwd w' = dir
  ∧ (∀ cmd d st, Exec cmd d st ∉ trace w')
  ∧ (trace w' = lines_before (target dir name) →
     ∃ d, locate dir name = Some d
          ∧ ∀ rel e, fs !! (template_place dir ++ rel) = Some e →
                     files w' !! (d ++ rel) = Some e).
Proof.
  intros Hrun Hmanifest Hbad.
  assert (∀ d fs2, ¬ prepared fs dir name d fs2) as Hnot.
  { intros d fs2 [d' fs1 content' v v' _ _ (Hin & _ & _) Hcontent Hparse Hassign].
    apply Hin in Hmanifest. rewrite Hcontent in Hmanifest.
    injection Hmanifest as ->. apply Hbad in Hparse.
    by destruct v. }
  destruct (main_stage _ _ _ _ _ _ _ Hrun) as (r & Hstage & ->).
  inversion Hstage as [e w1 Hcwd Htrace|e d fs1 Hd (Hin & _ & _)
                      |e d fs2 Hprep Hdir|d fs2 res Hprep Hdir Hres Hst
                      |d fs2 res Hprep Hdir Hres Hst]; subst; simpl in *;
    try (by destruct (Hnot _ _ Hprep)).
  - rewrite Htrace. repeat split; try done.
    intros cmd d st Hexec. simpl in Hexec. no_event Hexec.
  - repeat split; try done.
    + intros cmd d' st Hexec. no_event Hexec.
    + intros _. by exists d.
Qed.

Lemma set_keys k v fields :
  (Json.set k v fields).*1
  = if decide (k ∈ fields.*1) then fields.*1 else fields.*1 ++ [k].
Proof.
  induction fields as [|[k' v'] fields IH]; [done|].
  cbn [Json.set]. destruct (String.eqb k' k) eqn:E.
  - apply String.eqb_eq in E. subst k'.
    rewrite decide_True; [done|]. by left.
  - apply String.eqb_neq in E. rewrite !fmap_cons, IH. simpl.
    destruct (decide (k ∈ fields.*1)) as [Hin|Hout].
    + rewrite decide_True; [done|]. by right.
    + rewrite decide_False; [done|].
      intros [?|?]%elem_of_cons; congruence.
Qed.

Lemma set_lookup_other k v fields (i : nat) k' v' :
  fields !! i = Some (k', v') → k' ≠ k →
  Json.set k v fields !! i = Some (k', v').
Proof.
  revert i. induction fields as [|[k0 v0] fields IH]; intros i Hi Hne; [done|].
  simpl. destruct (String.eqb k0 k) eqn:E.
  - destruct i as [|i]; [|done]. simpl in Hi. injection Hi as -> ->.
    apply String.eqb_eq in E. done.
  - destruct i as [|i]; [done|]. simpl in *. by apply IH.
Qed.

(** X6: the patch keeps the properties of an object manifest in their
    order, each at its position with its value; [name] keeps its position
    when the template has it and is added after the last property when the
    template has none. *)
Theorem X6_patch_keeps_the_order_of_the_properties
    name fs dir code w' cmd d st content fields :
  main name (start fs dir) = (code, w') →
  Exec cmd d st ∈ trace w' →
  fs !! (template_place dir ++ ["package.json"]) = Some (File content) →
  JSON_parse (strip_bom content) = Some (JObj fields) →
  ∃ fs2 fields',
    files w' = disk (child cmd d fs2)
    ∧ fs2 !! (d ++ ["package.json"])
      = Some (File (Json.stringify (JObj fields') 2 +:+ Json.newline))
    ∧ fields'.*1
      = (if decide ("name" ∈ fields.*1) then fields.*1
         else fields.*1 ++ ["name"])
    ∧ (∀ (i : nat) k v, fields !! i = Some (k, v) → k ≠ "name" →
         fields' !! i = Some (k, v)).
Proof.
  intros Hrun Hexec Hmanifest Hparse.
  destruct (reached_install _ _ _ _ _ _ _ _ _ _ _ Hrun Hexec)
    as (fs2 & Hprep & _ & -> & -> & Hfiles & _).
  destruct Hprep as [d fs1 content' v v' _ _ (Hin & _ & _) Hcontent Hparse' Hassign].
  apply Hin in Hmanifest. rewrite Hcontent in Hmanifest.
  injection Hmanifest as ->. rewrite Hparse in Hparse'.
  injection Hparse' as <-. simpl in Hassign. injection Hassign as <-.
  eexists _, _. split; [exact Hfiles|].
  split; [by rewrite lookup_insert_eq|]. split; [apply set_keys|].
  intros i k v Hi Hne. by apply set_lookup_other.
Qed.

(** The run of a copy that throws before it writes. *)
Lemma refused_run name fs dir e :
  first_copy name fs dir
  = (Throw e, emit (line_creating (target dir name)) (start fs dir)) →
  ∃ w', main name (start fs dir) = (1%N, w')
        ∧ files w' = fs
        ∧ cwd w' = dir
        ∧ trace w' = [line_creating (target dir name)].
Proof. intros Hcopy%main_copy_throws. by eexists. Qed.

(** X7: with the empty string as argument the process exits with code 1
    after its first line, and the disk and the working directory are as they
    were, whatever the disk holds. *)
Theorem X7_empty_argument_changes_nothing fs dir :
  ∃ w', main "" (start fs dir) = (1%N, w')
        ∧ files w' = fs
        ∧ cwd w' = dir
        ∧ trace w' = [line_creating (target dir "")].
Proof.
  assert (∃ e, first_copy "" fs dir
               = (Throw e, emit (line_creating (target dir "")) (start fs dir)))
    as [e He]; [|by eapply refused_run].
  unfold fs_copy. cbn [cwd files emit start].
  rewrite template_located.
  destruct (fs !! template_place dir); by eexists.
Qed.


(** X9: when the argument resolves to the template or to a place inside it,
    the copy refuses: the process exits with code 1 after its first line
    and the disk is as it was. *)
Theorem X9_target_inside_the_template name fs dir d :
  locate dir name = Some d →
  template_place dir `prefix_of` d →
  ∃ w', main name (start fs dir) = (1%N, w')
        ∧ files w' = fs
        ∧ cwd w' = dir
        ∧ trace w' = [line_creating (target dir name)].
Proof.
  intros Hd Hinside.
  assert (∃ e, first_copy name fs dir
               = (Throw e, emit (line_creating (target dir name)) (start fs dir)))
    as [e He]; [|by eapply refused_run].
  unfold fs_copy. cbn [cwd files emit start].
  rewrite template_located, Hd.
  destruct (fs !! template_place dir) as [se|]; [|by eexists].
  destruct (copy_item fs (d, se)); [|by eexists].
  rewrite bool_decide_eq_true_2 by done. by eexists.
Qed.




(** X12: when neither the template nor the target has a manifest, the run
    stops at the copy or right after it: the process exits with code 1 in
    the directory where it started, no command is run, and if the copy was
    done the template is below the target. *)
Theorem X12_no_manifest_stops_the_run name fs dir d code w' :
  locate dir name = Some d →
  fs !! (template_place dir ++ ["package.json"]) = None →
  fs !! (d ++ ["package.json"]) = None →
  main name (start fs dir) = (code, w') →
  code = 1%N
  ∧ cwd w' = dir
  ∧ (trace w' = [line_creating (target dir name)]
     ∨ (trace w' = lines_before (target dir name)
        ∧ ∀ rel e, fs !! (template_place dir ++ rel) = Some e →
                   files w' !! (d ++ rel) = Some e)).
Proof.
  intros Hd Htemplate Htarget Hrun.
  destruct (first_copy name fs dir) as [[[]|e] w1] eqn:Hcopy.
  - assert (files w1 !! (d ++ ["package.json"]) = None) as Hnone.
    { rewrite <- Htarget.
      eapply (fs_copy_frame _ _ _ _ _ _ _ Hcopy); cbn [cwd files emit start];
        [apply template_located|exact Hd| |].
      - by intros rel <-%app_inv_head.
      - intros Hanc. by eapply manifest_not_ancestor. }
    rewrite (main_manifest_missing _ _ _ _ _ Hcopy Hd Hnone) in Hrun.
    injection Hrun as <- <-. simpl. repeat split; try done. right.
    split; [done|].
    destruct (fs_copy_ok _ _ _ _ Hcopy)
      as (s & d' & fs1 & Hs & Hd' & _ & (Hin & _ & _) & ->).
    cbn [cwd files emit start set_files] in *.
    rewrite template_located in Hs. injection Hs as <-.
    rewrite Hd in Hd'. injection Hd' as <-. exact Hin.
  - pose proof (fs_copy_world _ _ _ _ _ Hcopy) as [Hcwd Htrace].
    rewrite (main_copy_throws _ _ _ _ _ Hcopy) in Hrun.
    injection Hrun as <- <-. repeat split; try done. by left.
Qed.

End MoreRuns.

Section TemplatePlace.

Lemma locate_render dir (p : list string) :
  Forall seg_ok p → locate dir (render p) = Some p.
Proof.
  intros Hp. unfold render.
  change ("/" +:+ String.concat "/" p) with (String "/" (String.concat "/" p)).
  rewrite locate_absolute.
  change (Path.norm false [] (Path.split (String.concat "/" p)))
    with (Path.norm false [] (Path.split (render p))).
  by rewrite render_split, rev_involutive.
Qed.

Lemma dirname_render (l : list string) f :
  l ≠ [] → Forall seg_ok (l ++ [f]) →
  Path.dirname (render (l ++ [f])) = render l.
Proof.
  intros Hl Hall. unfold Path.dirname.
  assert (String.eqb (render (l ++ [f])) "" = false) as -> by reflexivity.
  assert (Path.split (render (l ++ [f])) = "" :: l ++ [f]) as ->.
  { unfold render.
    change ("/" +:+ ?s) with (String "/" s). rewrite split_cons_sep.
    rewrite split_concat; [done|by destruct l|].
    eapply Forall_impl; [exact Hall|]. by intros ? [_ ?]. }
  apply Forall_app in Hall as [Hall Hf].
  inversion Hf as [|? ? [(Hf1 & _) _] _]; subst.
  change (rev ("" :: l ++ [f])) with (rev (l ++ [f]) ++ [""]).
  rewrite rev_app_distr. cbn [rev app Path.drop_empty].
  apply String.eqb_neq in Hf1. rewrite Hf1.
  rewrite rev_app_distr, rev_involutive. cbn [rev app].
  destruct l as [|x l]; [done|].
  inversion Hall as [|? ? [(Hx & _) _] _]; subst.
  destruct x as [|c x]; [done|]. by destruct l.
Qed.

(** X13: for a compiled module at [<root>/<a>/<b>/<file>], the template
    that [createApp] copies is [<root>/template], whatever the working
    directory of the process. *)
Theorem X13_template_is_two_levels_above_the_module base a b f dir :
  Forall seg_ok (base ++ [a; b; f]) →
  template_place (render (base ++ [a; b; f])) dir = base ++ ["template"].
Proof.
  intros Hall.
  assert (Forall seg_ok base ∧ seg_ok a ∧ seg_ok b) as (Hbase & Ha & Hb).
  { apply Forall_app in Hall as [? Hrest].
    inversion Hrest as [|? ? ? Hrest']. by inversion Hrest'. }
  assert (Forall seg_ok (base ++ [a; b])) as Hdir.
  { apply Forall_app. split; [done|]. by do 2 (constructor; [done|]). }
  unfold template_place, template, __dirname.
  change (base ++ [a; b; f]) with (base ++ ([a; b] ++ [f])).
  rewrite app_assoc, dirname_render; [|by destruct base|by rewrite <- app_assoc].
  assert (Path.resolve (render dir) [render (base ++ [a; b]); "../../template"]
          = render (base ++ ["template"])) as ->.
  { assert (String.eqb (render (base ++ [a; b])) "" = false) as Hne
      by reflexivity.
    assert (Path.isAbsolute (render (base ++ [a; b])) = true) as Hroot
      by reflexivity.
    unfold Path.resolve.
    change (rev [render (base ++ [a; b]); "../../template"])
      with ["../../template"; render (base ++ [a; b])].
    cbn [Path.resolve_loop].
    change (String.eqb "../../template" "") with false.
    change (Path.isAbsolute "../../template") with false.
    cbv iota. rewrite Hne, Hroot. cbv [negb].
    unfold Path.normalizeString.
    change (render (base ++ [a; b]) +:+ "/" +:+ "../../template" +:+ "/" +:+ "")
      with (render (base ++ [a; b]) +:+ String "/" "../../template/").
    rewrite split_app, norm_app, render_split by done.
    change (Path.split "../../template/") with [".."; ".."; "template"; ""].
    rewrite rev_app_distr. cbn [rev app].
    destruct Ha as [(_ & _ & Ha) _], Hb as [(_ & _ & Hb) _].
    apply String.eqb_neq in Ha, Hb.
    cbn [Path.norm fold_left]. unfold Path.norm_step. simpl.
    rewrite Hb, Ha. simpl. by rewrite rev_involutive. }
  rewrite locate_render; [done|].
  apply Forall_app. split; [done|]. by constructor.
Qed.

End TemplatePlace.

(** * The further properties on the scenarios *)

(** The scenario of the README ends in the fourth shape. *)
Lemma X1_witness :
  ((Demo.run "demo").1 = 1%N ∧ cwd (Demo.run "demo").2 = Demo.home
   ∧ trace (Demo.run "demo").2 = [line_creating (target Demo.home "demo")])
  ∨ ((Demo.run "demo").1 = 1%N ∧ cwd (Demo.run "demo").2 = Demo.home
     ∧ trace (Demo.run "demo").2 = lines_before (target Demo.home "demo"))
  ∨ (∃ d st, (Demo.run "demo").1 = 1%N ∧ st ≠ 0%N
             ∧ locate Demo.home "demo" = Some d ∧ cwd (Demo.run "demo").2 = d
             ∧ trace (Demo.run "demo").2
               = lines_before (target Demo.home "demo") ++ lines_install d st)
  ∨ (∃ d, (Demo.run "demo").1 = 0%N
          ∧ locate Demo.home "demo" = Some d ∧ cwd (Demo.run "demo").2 = d
          ∧ trace (Demo.run "demo").2
            = lines_before (target Demo.home "demo") ++ lines_install d 0
                ++ lines_after (target Demo.home "demo")).
Proof.
  apply (X1_output_tells_the_stage
           Reader.parse Demo.npm_ok Demo.module_file "demo"
           Demo.disk0 Demo.home (Demo.run "demo").1 (Demo.run "demo").2).
  apply surjective_pairing.
Defined.

(** The scenario with an argument that names a directory in a directory
    that is not there. *)
Lemma X2_witness :
  ∃ d, locate Demo.home "sub/app" = Some d
       ∧ files (Demo.run "sub/app").2 !! d = Some Dir
       ∧ (∀ p, p ∈ ancestors d → files (Demo.run "sub/app").2 !! p = Some Dir)
       ∧ (∀ rel e,
            Demo.disk0 !! (template_place Demo.module_file Demo.home ++ rel)
            = Some e →
            ∃ e', files (Demo.run "sub/app").2 !! (d ++ rel) = Some e'
                  ∧ is_dir (Some e') = is_dir (Some e)).
Proof.
  apply (X2_target_and_its_parents_exist
           Reader.parse Demo.npm_ok Demo.module_file "sub/app"
           Demo.disk0 Demo.home (Demo.run "sub/app").2).
  - apply npm_ok_keeps.
  - run_is_pair (Demo.run "sub/app").
Defined.

(** The same scenario: the base name of the argument is [app]. *)
Lemma X3_witness :
  ∃ fs2 fields',
    files (Demo.run "sub/app").2
    = disk (Demo.npm_ok "npm install" ["work"; "sub"; "app"] fs2)
    ∧ fs2 !! (["work"; "sub"; "app"] ++ ["package.json"])
      = Some (File (Json.stringify (JObj fields') 2 +:+ Json.newline))
    ∧ Json.get "name" fields'
      = Some (JStr (Path.basename (target Demo.home "sub/app")))
    ∧ last ["work"; "sub"; "app"]
      = Some (Path.basename (target Demo.home "sub/app")).
Proof.
  apply (X3_name_is_the_base_name_of_the_target
           Reader.parse Demo.npm_ok Demo.module_file "sub/app"
           Demo.disk0 Demo.home (Demo.run "sub/app").1 (Demo.run "sub/app").2
           "npm install" ["work"; "sub"; "app"] 0%N Demo.manifest_text
           Demo.manifest_fields).
  - apply home_ok.
  - vm_compute. by repeat split.
  - run_is_pair (Demo.run "sub/app").
  - vm_compute. repeat constructor.
  - vm_compute. reflexivity.
  - vm_compute. reflexivity.
Defined.

(** The scenario of the README, started in the clean directory [/work]. *)
Lemma X4_witness :
  locate Demo.home "demo" = Some (cwd (Demo.run "demo").2)
  ∧ head (trace (Demo.run "demo").2)
    = Some (line_creating (render (cwd (Demo.run "demo").2)))
  ∧ last (trace (Demo.run "demo").2)
    = Some (Log bold (Json.newline +:+ "cd "
                        +:+ render (cwd (Demo.run "demo").2)
                        +:+ " && npm run dev" +:+ Json.newline)).
Proof.
  apply (X4_lines_name_the_install_directory
           Reader.parse Demo.npm_ok Demo.module_file "demo"
           Demo.disk0 Demo.home (Demo.run "demo").2).
  - apply home_ok.
  - run_is_pair (Demo.run "demo").
Defined.

(** The scenario with a template whose manifest is the text [null]. *)
Lemma X5_witness :
  (Cases.run_on Cases.null_manifest Demo.home "demo").1 = 1%N
  ∧ cwd (Cases.run_on Cases.null_manifest Demo.home "demo").2 = Demo.home
  ∧ (∀ cmd d st,
       Exec cmd d st ∉ trace (Cases.run_on Cases.null_manifest Demo.home "demo").2)
  ∧ (trace (Cases.run_on Cases.null_manifest Demo.home "demo").2
     = lines_before (target Demo.home "demo") →
     ∃ d, locate Demo.home "demo" = Some d
          ∧ ∀ rel e,
              Cases.null_manifest
                !! (template_place Demo.module_file Demo.home ++ rel) = Some e →
              files (Cases.run_on Cases.null_manifest Demo.home "demo").2
                !! (d ++ rel) = Some e).
Proof.
  apply (X5_unusable_manifest_stops_the_run
           Reader.parse Demo.npm_ok Demo.module_file "demo"
           Cases.null_manifest Demo.home
           (Cases.run_on Cases.null_manifest Demo.home "demo").1
           (Cases.run_on Cases.null_manifest Demo.home "demo").2 "null").
  - apply surjective_pairing.
  - vm_compute. reflexivity.
  - intros v Hv. vm_compute in Hv. injection Hv as <-. reflexivity.
Defined.

(** The scenario with a template whose manifest has no [name]. *)
Lemma X6_witness :
  ∃ fs2 fields',
    files (Cases.run_on Cases.nameless_manifest Demo.home "demo").2
    = disk (Demo.npm_ok "npm install" ["work"; "demo"] fs2)
    ∧ fs2 !! (["work"; "demo"] ++ ["package.json"])
      = Some (File (Json.stringify (JObj fields') 2 +:+ Json.newline))
    ∧ fields'.*1
      = (if decide ("name" ∈ Cases.nameless_fields.*1)
         then Cases.nameless_fields.*1
         else Cases.nameless_fields.*1 ++ ["name"])
    ∧ (∀ (i : nat) k v, Cases.nameless_fields !! i = Some (k, v) → k ≠ "name" →
         fields' !! i = Some (k, v)).
Proof.
  apply (X6_patch_keeps_the_order_of_the_properties
           Reader.parse Demo.npm_ok Demo.module_file "demo"
           Cases.nameless_manifest Demo.home
           (Cases.run_on Cases.nameless_manifest Demo.home "demo").1
           (Cases.run_on Cases.nameless_manifest Demo.home "demo").2
           "npm install" ["work"; "demo"] 0%N
           (Json.stringify (JObj Cases.nameless_fields) 2 +:+ Json.newline)
           Cases.nameless_fields).
  - apply surjective_pairing.
  - vm_compute. repeat constructor.
  - vm_compute. reflexivity.
  - vm_compute. reflexivity.
Defined.


(** The tool is run in its own template directory. *)
Lemma X9_witness :
  ∃ w', main Reader.parse Demo.npm_ok Demo.module_file "x"
          (start Demo.disk0 ["opt"; "tool"; "template"]) = (1%N, w')
        ∧ files w' = Demo.disk0
        ∧ cwd w' = ["opt"; "tool"; "template"]
        ∧ trace w' = [line_creating (target ["opt"; "tool"; "template"] "x")].
Proof.
  apply (X9_target_inside_the_template
           Reader.parse Demo.npm_ok Demo.module_file "x"
           Demo.disk0 ["opt"; "tool"; "template"]
           ["opt"; "tool"; "template"; "x"]).
  - vm_compute. reflexivity.
  - exists ["x"]. vm_compute. reflexivity.
Defined.



(** The scenario with a template that ships no manifest. *)
Lemma X12_witness :
  (Cases.run_on Cases.no_manifest Demo.home "demo").1 = 1%N
  ∧ cwd (Cases.run_on Cases.no_manifest Demo.home "demo").2 = Demo.home
  ∧ (trace (Cases.run_on Cases.no_manifest Demo.home "demo").2
     = [line_creating (target Demo.home "demo")]
     ∨ (trace (Cases.run_on Cases.no_manifest Demo.home "demo").2
        = lines_before (target Demo.home "demo")
        ∧ ∀ rel e,
            Cases.no_manifest
              !! (template_place Demo.module_file Demo.home ++ rel) = Some e →
            files (Cases.run_on Cases.no_manifest Demo.home "demo").2
              !! (["work"; "demo"] ++ rel) = Some e)).
Proof.
  apply (X12_no_manifest_stops_the_run
           Reader.parse Demo.npm_ok Demo.module_file "demo"
           Cases.no_manifest Demo.home ["work"; "demo"]
           (Cases.run_on Cases.no_manifest Demo.home "demo").1
           (Cases.run_on Cases.no_manifest Demo.home "demo").2).
  - vm_compute. reflexivity.
  - vm_compute. reflexivity.
  - vm_compute. reflexivity.
  - apply surjective_pairing.
Defined.

(** The module of the scenario is [/opt/tool/dist/src/createApp.js]. *)
Lemma X13_witness :
  render (["opt"; "tool"] ++ ["dist"; "src"; "createApp.js"]) = Demo.module_file
  ∧ template_place
      (render (["opt"; "tool"] ++ ["dist"; "src"; "createApp.js"])) Demo.home
    = ["opt"; "tool"] ++ ["template"].
Proof.
  split; [reflexivity|].
  apply (X13_template_is_two_levels_above_the_module
           ["opt"; "tool"] "dist" "src" "createApp.js" Demo.home).
  repeat constructor; done.
Defined.
